(** * ngx-rocket command line: a shallow embedding of [cli/index.js]

    The file follows the class [NgxCli] of [cli/index.js]: the manifest
    walk [_findPackageJson], add-on discovery [_findAddons], the package
    manager resolver [_packageManager], and the commands [generate] and
    [configure] built from them.

    Conventions of the embedding:
    - JavaScript values that come out of [JSON.parse] / [require] of a
      [.json] file are the inductive [jsval]; objects used as maps are
      [gmap string _] (own properties), and a read or write under a
      computed key also goes through [Object.prototype], as in the code.
    - The file system, the environment variable, the generator runtime
      and the preference store are fields of one record [World]; every
      function reads them from there, so nothing is cached between calls.
    - Output, runtime invocations and store writes are events of a trace;
      a computation ends by returning, by throwing, or by [process.exit].
    - [path.join], [path.sep] are the POSIX ones of Node's [path]. *)

From Stdlib Require Import String Ascii List ZArith Lia Bool.
From Stdlib Require Import Floats.PrimFloat.
From stdpp Require Import gmap strings list.
From Equations Require Import Equations.
Import ListNotations.

Open Scope string_scope.

(** ** Strings and paths *)

Module Path.

(** [path.sep] on POSIX. *)
Definition sep : string := "/".

(** Splitting a string at every character accepted by [isSep], as
    [String.prototype.split] does with a one-character class: the result
    always has one more element than there are separators. *)
Fixpoint split (isSep : ascii -> bool) (s : string) : list string :=
  match s with
  | EmptyString => [EmptyString]
  | String c rest =>
      if isSep c then EmptyString :: split isSep rest
      else match split isSep rest with
           | h :: t => String c h :: t
           | [] => [String c EmptyString]
           end
  end.

Definition isPosixPathSeparator (c : ascii) : bool := Ascii.eqb c "/".

Definition startsWithSlash (p : string) : bool :=
  match p with
  | String c _ => isPosixPathSeparator c
  | EmptyString => false
  end.

Fixpoint endsWithSlash (p : string) : bool :=
  match p with
  | EmptyString => false
  | String c EmptyString => isPosixPathSeparator c
  | String _ rest => endsWithSlash rest
  end.

(** One step of [normalizeString] of Node's [lib/path.js], on whole
    segments; [res] is the stack of kept segments, innermost first. *)
Definition normalizeStep (allowAboveRoot : bool) (res : list string) (seg : string)
  : list string :=
  if String.eqb seg "" || String.eqb seg "." then res
  else if String.eqb seg ".." then
    match res with
    | top :: below =>
        if String.eqb top ".."
        then (if allowAboveRoot then ".." :: res else res)
        else below
    | [] => if allowAboveRoot then [".."] else []
    end
  else seg :: res.

Definition normalizeString (allowAboveRoot : bool) (p : string) : string :=
  String.concat "/"
    (rev (fold_left (normalizeStep allowAboveRoot) (split isPosixPathSeparator p) [])).

(** [path.posix.normalize]. *)
Definition normalize (p : string) : string :=
  if String.eqb p "" then "."
  else
    let isAbsolute := startsWithSlash p in
    let trailingSeparator := endsWithSlash p in
    let q := normalizeString (negb isAbsolute) p in
    if String.eqb q "" then
      (if isAbsolute then "/" else if trailingSeparator then "./" else ".")
    else
      let q := if trailingSeparator then q ++ "/" else q in
      if isAbsolute then "/" ++ q else q.

(** [path.posix.join(...args)]: empty arguments are skipped, the others
    are glued with a slash and the result is normalized. *)
Definition join (args : list string) : string :=
  match List.filter (fun a => negb (String.eqb a "")) args with
  | [] => "."
  | parts => normalize (String.concat "/" parts)
  end.

End Path.

(** ** The manifest walk, [_findPackageJson] (lines 207-225) *)

Module FindPackageJson.

(** What the walk does, in order: entering [find] with a component
    list, and asking [fs.existsSync] about a file. *)
Inductive step :=
| Enter (components : list string)
| ExistsSync (file : string).

Definition calls (t : list step) : list (list string) :=
  omap (fun s => match s with Enter cs => Some cs | _ => None end) t.

Definition probes (t : list step) : list string :=
  omap (fun s => match s with ExistsSync f => Some f | _ => None end) t.

(** Successive calls of [find]: each one is made on the previous list
    without its last element. *)
Fixpoint drops_last (entered : list (list string)) : Prop :=
  match entered with
  | a :: ((b :: _) as rest) =>
      b = removelast a /\ length b < length a /\ drops_last rest
  | _ => True
  end.

(** The regular expression [/[/\\]/] of line 218. *)
Definition isSeparator (c : ascii) : bool :=
  Ascii.eqb c "/" || Ascii.eqb c "\".

Section Walk.

(** [fs.existsSync]. *)
Variable existsSync : string -> bool.

(** Lines 213-214: the manifest looked for in the directory made of
    [components]. *)
Definition packageFile (components : list string) : string :=
  let dir := Path.join components in
  Path.join [dir; "package.json"].

(** The inner arrow function [find] (lines 208-216), with the log of
    its steps; [removelast] is [components.slice(0, -1)]. *)
Equations? find (components : list string) : list step * option string
  by wf (length components) lt :=
  find [] := ([Enter []], None);
  find (c :: cs) with existsSync (packageFile (c :: cs)) => {
    | true :=
        ([Enter (c :: cs); ExistsSync (packageFile (c :: cs))],
         Some (packageFile (c :: cs)));
    | false :=
        let r := find (removelast (c :: cs)) in
        (Enter (c :: cs) :: ExistsSync (packageFile (c :: cs)) :: fst r, snd r) }.
Proof.
  clear. revert c. induction cs as [|d cs IH]; intros c; simpl in *; [lia|].
  specialize (IH d). lia.
Qed.

(** Lines 218-222: split, and put the separator back in front of an
    absolute path. *)
Definition components_of (basePath : string) : list string :=
  let components := Path.split isSeparator basePath in
  match components with
  | c0 :: rest =>
      if Nat.eqb (String.length c0) 0 then Path.sep :: rest else components
  | [] => components
  end.

Definition _findPackageJson_log (basePath : string) : list step * option string :=
  find (components_of basePath).

Definition _findPackageJson (basePath : string) : option string :=
  snd (_findPackageJson_log basePath).

End Walk.

End FindPackageJson.

(** ** JavaScript values *)

Module JS.

(** Values as [JSON.parse] and [require] of a [.json] file produce them,
    plus [undefined]. Numbers are IEEE doubles; an object is the finite
    map of its own properties. *)
#[warnings="-register-all"]
Inductive jsval :=
| JUndefined
| JNull
| JBool (b : bool)
| JNum (n : float)
| JStr (s : string)
| JArr (items : list jsval)
| JObj (props : gmap string jsval).

(** [ToBoolean]: what [if (v)], [!v], [v || w] and [Boolean(v)] test. *)
Definition truthy (v : jsval) : bool :=
  match v with
  | JUndefined | JNull => false
  | JBool b => b
  | JNum n => negb (PrimFloat.eqb n 0 || PrimFloat.is_nan n)
  | JStr s => negb (String.eqb s "")
  | JArr _ | JObj _ => true
  end.

(** [a || b]. *)
Definition or (a b : jsval) : jsval := if truthy a then a else b.

(** [v === s] for a string literal [s]. *)
Definition strictEqStr (v : jsval) (s : string) : bool :=
  match v with
  | JStr t => String.eqb t s
  | _ => false
  end.

(** Exceptions of the runtime. *)
Inductive error :=
| TypeError
| SyntaxError
| ModuleNotFound.

Inductive result (A : Type) :=
| Ok (a : A)
| Throw (e : error).
Arguments Ok {A} a.
Arguments Throw {A} e.

#[export] Instance result_ret : MRet result := fun _ a => Ok a.
#[export] Instance result_bind : MBind result := fun _ _ f r =>
  match r with
  | Ok a => f a
  | Throw e => Throw e
  end.

(** Property read [v.k] / [v[k]]. Reading a property of [null] or
    [undefined] throws; the names read by [cli/index.js]
    ([generator-ngx-rocket], [props], [packageManager], [isAddon],
    [keywords]) are properties of no primitive, array or prototype, so
    on those values the read gives [undefined]. *)
Definition member (v : jsval) (k : string) : result jsval :=
  match v with
  | JUndefined | JNull => Throw TypeError
  | JObj props => Ok (default JUndefined (props !! k))
  | _ => Ok JUndefined
  end.

(** The properties a plain object inherits from [Object.prototype].
    Each holds a function, and [__proto__] reads as the prototype
    itself, so a read of any of them on an object that has no property
    of that name of its own gives a truthy value. *)
Definition objectPrototype : list string :=
  ["constructor"; "__defineGetter__"; "__defineSetter__"; "hasOwnProperty";
   "__lookupGetter__"; "__lookupSetter__"; "isPrototypeOf"; "propertyIsEnumerable";
   "toString"; "valueOf"; "__proto__"; "toLocaleString"].

Definition inherited (key : string) : bool :=
  existsb (String.eqb key) objectPrototype.

(** [k in Object(v)], for [v] neither [null] nor [undefined]. *)
Definition hasProperty (v : jsval) (k : string) : bool :=
  match v with
  | JObj props => bool_decide (is_Some (props !! k))
  | _ => false
  end.

(** The method call [v.includes(key)]: arrays compare elements, strings
    search a substring, anything else has no such method. *)
Definition includes (v : jsval) (key : string) : result bool :=
  match v with
  | JArr items => Ok (existsb (fun item => strictEqStr item key) items)
  | JStr s => Ok (match String.index 0 key s with Some _ => true | None => false end)
  | _ => Throw TypeError
  end.

(** [filter] with a callback that may throw: elements are visited from
    left to right and the first exception leaves the loop. *)
Fixpoint filterM {A : Type} (f : A -> result bool) (l : list A) : result (list A) :=
  match l with
  | [] => Ok []
  | x :: rest =>
      keep ← f x;
      kept ← filterM f rest;
      Ok (if keep : bool then x :: kept else kept)
  end.

End JS.
Import JS.

(** ** [lodash.get] *)

Module Lodash.

(** [baseGet]'s loop over a path of at least one key: stop at
    [null]/[undefined], and give [undefined] when keys are left over. *)
Fixpoint baseGet (object : jsval) (keys : list string) : jsval :=
  match keys with
  | [] => object
  | k :: rest =>
      match member object k with
      | Ok v => baseGet v rest
      | Throw _ => JUndefined
      end
  end.

(** [get(object, path)] for a dotted [path] without brackets: the whole
    string is tried as one key first ([isKey]), then split at the dots. *)
Definition get (object : jsval) (path : string) : jsval :=
  match object with
  | JUndefined | JNull => JUndefined
  | _ =>
      if hasProperty object path then baseGet object [path]
      else baseGet object (Path.split (fun c => Ascii.eqb c ".") path)
  end.

End Lodash.

(** ** The world an invocation runs in, and what it does to it *)

(** A manifest file on disk, as [require] / [JSON.parse] sees it. *)
Inductive file :=
| Missing
| Unreadable
| Json (content : jsval).

(** An entry of [env.getGeneratorsMeta()]. *)
Record GeneratorMeta := {
  resolved : string;
  namespace : string
}.

Record World := {
  (** manifests by path *)
  files : string -> file;
  (** [.yo-rc.json] of the working directory *)
  yo_rc : file;
  (** [process.env.NGX_PACKAGE_MANAGER] *)
  NGX_PACKAGE_MANAGER : option string;
  (** the values of [env.getGeneratorsMeta()], in [Object.keys] order *)
  generatorsMeta : list GeneratorMeta;
  (** the [disabledAddons] entry of the [Conf] store *)
  store : gmap string bool;
  (** [inquirer.prompt]: the names the user leaves checked *)
  answers_addons : list (string * bool) -> list string
}.

(** The option bag given to [env.run]. *)
Record RunOptions := {
  run_update : bool;
  run_packageManager : jsval;
  run_addons : option string;
  skip_welcome : bool
}.

Inductive event :=
| ConsoleLogLogo (version : string)
| ConsoleLog (text : string)
| ConsoleError (text : string)
| EnvLookup
| EnvRun (args : list string) (options : RunOptions)
| Prompt (choices : list (string * bool))
| ConfSet (key : string) (value : gmap string bool).

(** How a computation ends: normally, with an exception, or in
    [process.exit]. *)
Inductive outcome (A : Type) :=
| Returned (a : A)
| Threw (e : error)
| Exited (code : Z).
Arguments Returned {A} a.
Arguments Threw {A} e.
Arguments Exited {A} code.

(** Effects in order of occurrence, then the outcome. *)
Definition M (A : Type) : Type := list event * outcome A.

#[export] Instance M_ret : MRet M := fun _ a => ([], Returned a).
#[export] Instance M_bind : MBind M := fun _ _ f m =>
  match m with
  | (t, Returned a) => let '(t', o) := f a in ((t ++ t')%list, o)
  | (t, Threw e) => (t, Threw e)
  | (t, Exited code) => (t, Exited code)
  end.

Definition emit (e : event) : M unit := ([e], Returned tt).

Definition lift {A : Type} (r : result A) : M A :=
  match r with
  | Ok a => ([], Returned a)
  | Throw e => ([], Threw e)
  end.

Definition trace {A : Type} (m : M A) : list event := fst m.
Definition ending {A : Type} (m : M A) : outcome A := snd m.

Definition isEnvRun (e : event) : bool :=
  match e with
  | EnvRun _ _ => true
  | _ => false
  end.

(** ** The class [NgxCli] *)

Module NgxCli.

Definition addonKey : string := "ngx-rocket-addon".
Definition disabledAddons : string := "disabledAddons".

(** [pkg.version] of [package.json]. *)
Definition pkg_version : string := "6.0.0".

(** How the long option [--packageManager] is written on the command
    line: not at all, alone, followed by a word, with [=value], or as
    [--no-packageManager]. *)
Inductive spelling :=
| Absent
| Bare
| FollowedBy (next : string)
| Equals (value : string)
| Negated.

(** What [minimist] stores for a key listed under [boolean]: the default
    [false]; [value !== 'false'] for [--key=value]; [false] for
    [--no-key]; for [--key next] the word [next] is consumed only when
    it reads [true] or [false], any other word stays a positional
    argument and the key is [true]. *)
Definition minimist_boolean (s : spelling) : bool :=
  match s with
  | Absent => false
  | Bare => true
  | FollowedBy next => negb (String.eqb next "false")
  | Equals value => negb (String.eqb value "false")
  | Negated => false
  end.

(** [this._options]. *)
Record Options := {
  help : bool;
  npm : bool;
  addon : bool;
  packageManager : jsval
}.

(** The constructor, lines 51-57: all four keys are declared [boolean].
    [help], [npm] and [addon] are taken as parsed, however they were
    written ([-n] and [-a] are aliases); [packageManager] has no alias. *)
Definition constructor (help npm addon : bool) (packageManager : spelling) : Options :=
  {| help := help;
     npm := npm;
     addon := addon;
     packageManager := JBool (minimist_boolean packageManager) |}.

Definition existsSync (w : World) (p : string) : bool :=
  match files w p with
  | Missing => false
  | _ => true
  end.

(** [require(p)] of a manifest; [p] may be [null]. *)
Definition require (w : World) (p : option string) : result jsval :=
  match p with
  | None => Throw TypeError
  | Some p =>
      match files w p with
      | Json content => Ok content
      | Unreadable => Throw SyntaxError
      | Missing => Throw ModuleNotFound
      end
  end.

(** Reading and parsing the working directory's [.yo-rc.json]. *)
Definition read_yo_rc (w : World) : result jsval :=
  match yo_rc w with
  | Json content => Ok content
  | Unreadable => Throw SyntaxError
  | Missing => Throw ModuleNotFound
  end.

Definition env_value (v : option string) : jsval :=
  match v with
  | Some s => JStr s
  | None => JUndefined
  end.

(** Lines 232-238: the package manager recorded in the project
    manifest; any exception of the [try] block leaves [pm] at [null]. *)
Definition recorded (w : World) : jsval :=
  match (rc ← read_yo_rc w;
         generator ← member rc "generator-ngx-rocket";
         props ← member generator "props";
         member props "packageManager") with
  | Ok pm => pm
  | Throw _ => JNull
  end.

(** [_packageManager], lines 227-241. *)
Definition _packageManager (options : Options) (w : World) : jsval :=
  if truthy (packageManager options) then
    (if strictEqStr (packageManager options) "yarn" then JStr "yarn" else JStr "npm")
  else
    let pm := recorded w in
    or (or pm (env_value (NGX_PACKAGE_MANAGER w))) (JStr "npm").

(** [_exit], lines 248-252: [code] defaults to 1. *)
Definition _exit {A : Type} (error : string) (code : option Z) : M A :=
  ([ConsoleError error], Exited (default 1%Z code)).

(** [namespace.replace(/(.*?):app$/, '$1')]: a final [:app] is removed. *)
Fixpoint stripApp (ns : string) : string :=
  if String.eqb ns ":app" then EmptyString
  else match ns with
       | EmptyString => EmptyString
       | String c rest => String c (stripApp rest)
       end.

(** The callback of [filter] in [_findAddons], lines 196-200. *)
Definition hasAddonKeyword (w : World) (generator : GeneratorMeta) : result bool :=
  let packagePath := FindPackageJson._findPackageJson (existsSync w) (resolved generator) in
  pkg ← require w packagePath;
  keywords ← member pkg "keywords";
  includes (or keywords (JArr [])) addonKey.

(** [_findAddons], lines 190-205. *)
Definition _findAddons (w : World) : M (list string) :=
  emit EnvLookup;;
  generators ← lift (filterM (hasAddonKeyword w) (generatorsMeta w));
  mret (List.map (fun generator => stripApp (namespace generator)) generators).

(** [disabled[addon]] as a condition. The stored map is a plain object:
    the read gives its own property when it has one, and otherwise what
    [Object.prototype] holds under that name, [undefined] for most names
    and a truthy value for the inherited ones. *)
Definition isDisabled (disabled : gmap string bool) (addon : string) : bool :=
  match disabled !! addon with
  | Some flag => flag
  | None => inherited addon
  end.

(** Lines 112-119 of [generate]: the add-on generator. *)
Definition generateAddon (options : Options) (w : World)
    (update : bool) (args : list string) : M unit :=
  let args :=
    List.filter (fun arg => negb (String.eqb arg "--addon") && negb (String.eqb arg "-a")) args in
  emit EnvLookup;;
  emit (EnvRun ("ngx-rocket:addon" :: args)
          {| run_update := update;
             run_packageManager := _packageManager options w;
             run_addons := None;
             skip_welcome := true |}).

(** Lines 121-139 of [generate]: the app generator with the add-ons
    that are not disabled. *)
Definition generateApp (options : Options) (w : World)
    (update : bool) (args : list string) : M unit :=
  let disabled := store w in
  addons ← _findAddons w;
  let addons := List.filter (fun addon => negb (isDisabled disabled addon)) addons in
  emit EnvLookup;;
  emit (EnvRun ("ngx-rocket" :: args)
          {| run_update := update;
             run_packageManager := _packageManager options w;
             run_addons := Some (String.concat " " addons);
             skip_welcome := true |});;
  emit (ConsoleLog "").

(** [generate], lines 101-141. The styling of [chalk] is left out of
    the message. *)
Definition generate (options : Options) (w : World)
    (update : bool) (args : list string) (addon : bool) : M unit :=
  addon ←
    (if negb update then
       emit (ConsoleLogLogo pkg_version);; mret addon
     else
       match yo_rc w with
       | Missing => _exit "No existing app found, use ngx new instead" None
       | _ =>
           rc ← lift (read_yo_rc w);
           mret (truthy (Lodash.get rc "generator-ngx-rocket.props.isAddon"))
       end);
  if addon : bool then generateAddon options w update args
  else generateApp options w update args.

(** [answers.addons.includes(addon)]. *)
Definition selected (answers : list string) (addon : string) : bool :=
  existsb (String.eqb addon) answers.

(** [r[addon] = true] on the object the [reduce] starts from: the
    assignment adds or overwrites an own property, except under
    [__proto__], where it calls the setter of [Object.prototype], which
    ignores a value that is neither an object nor [null]. *)
Definition assignTrue (r : gmap string bool) (addon : string) : gmap string bool :=
  if String.eqb addon "__proto__" then r else <[addon := true]> r.

(** [configure], lines 143-166. *)
Definition configure (w : World) : M unit :=
  addons ← _findAddons w;
  let disabled := store w in
  let choices := List.map (fun addon => (addon, negb (isDisabled disabled addon))) addons in
  emit (Prompt choices);;
  let answers := answers_addons w choices in
  emit (ConfSet disabledAddons
          (fold_left assignTrue
             (List.filter (fun addon => negb (selected answers addon)) addons)
             ∅));;
  emit (ConsoleLog "Configuration saved.").

End NgxCli.

(** ** Concrete worlds used in the examples below *)

Module Sample.

Import NgxCli.

Definition manifest (keywords : list string) : jsval :=
  JObj {[ "keywords" := JArr (List.map JStr keywords) ]}.

(** A [.yo-rc.json] that records [props]. *)
Definition rc_with (props : gmap string jsval) : jsval :=
  JObj {[ "generator-ngx-rocket" := JObj {[ "props" := JObj props ]} ]}.

Definition no_files : string -> file := fun _ => Missing.

(** Three installed add-ons A, B and C, and a generator D that is not
    one; B is disabled; the user checks A and C. *)
Definition installed : World := {|
  files := fun p =>
    if String.eqb p "/lib/generator-A/package.json" then Json (manifest ["ngx-rocket-addon"])
    else if String.eqb p "/lib/generator-B/package.json" then Json (manifest ["ngx"; "ngx-rocket-addon"])
    else if String.eqb p "/lib/generator-C/package.json" then Json (manifest ["ngx-rocket-addon"])
    else if String.eqb p "/lib/generator-D/package.json" then Json (manifest ["yeoman-generator"])
    else Missing;
  yo_rc := Missing;
  NGX_PACKAGE_MANAGER := None;
  generatorsMeta :=
    [ {| resolved := "/lib/generator-A/generators/app/index.js"; namespace := "A:app" |};
      {| resolved := "/lib/generator-B/generators/app/index.js"; namespace := "B:app" |};
      {| resolved := "/lib/generator-D/generators/app/index.js"; namespace := "D:app" |};
      {| resolved := "/lib/generator-C/generators/app/index.js"; namespace := "C:app" |} ];
  store := {[ "B" := true ]};
  answers_addons := fun _ => ["A"; "C"]
|}.

(** The same, inside a project generated as an add-on. *)
Definition addon_project : World := {|
  files := files installed;
  yo_rc := Json (rc_with {[ "isAddon" := JBool true ]});
  NGX_PACKAGE_MANAGER := None;
  generatorsMeta := generatorsMeta installed;
  store := store installed;
  answers_addons := answers_addons installed
|}.

(** The same, inside a project generated as an app, whose manifest has
    no [isAddon] and no [packageManager]. *)
Definition app_project : World := {|
  files := files installed;
  yo_rc := Json (rc_with ∅);
  NGX_PACKAGE_MANAGER := None;
  generatorsMeta := generatorsMeta installed;
  store := store installed;
  answers_addons := answers_addons installed
|}.

(** A generator whose directory has no manifest up to the root comes
    before the add-on A. *)
Definition stray_generator : World := {|
  files := files installed;
  yo_rc := Missing;
  NGX_PACKAGE_MANAGER := None;
  generatorsMeta :=
    [ {| resolved := "/tmp/gen/index.js"; namespace := "gen:app" |};
      {| resolved := "/lib/generator-A/generators/app/index.js"; namespace := "A:app" |} ];
  store := ∅;
  answers_addons := fun _ => []
|}.

(** Nothing installed; only the project manifest and the environment
    variable vary. *)
Definition bare (rc : file) (variable : option string) : World := {|
  files := no_files;
  yo_rc := rc;
  NGX_PACKAGE_MANAGER := variable;
  generatorsMeta := [];
  store := ∅;
  answers_addons := fun _ => []
|}.

(** No option on the command line. *)
Definition no_options : Options := constructor false false false Absent.

(** [--packageManager yarn] on the command line. *)
Definition flag_yarn : Options := constructor false false false (FollowedBy "yarn").

End Sample.

(** ** Vocabulary of the statements *)

Definition yarn_or_npm (v : jsval) : Prop := v = JStr "yarn" \/ v = JStr "npm".

(** The add-on flag in effect in [generate]: the one of the command
    line for [new]; for [update], the [isAddon] recorded in a project
    manifest that is there and parses. *)
Definition addon_in_effect (w : World) (update addon flag : bool) : Prop :=
  (update = false /\ addon = flag) \/
  (update = true /\
   exists rc, yo_rc w = Json rc /\
              truthy (Lodash.get rc "generator-ngx-rocket.props.isAddon") = flag).

(** ** The commands around [generate] and [configure] *)

Module Cli.

(** [blacklistedNpmAddons], line 20. *)
Definition blacklistedNpmAddons : list string :=
  ["generator-ngx-rocket"; "generator-ngx-rocket-addon"].

(** What [child.execSync] gives for the registry search: an exception
    when the command fails; otherwise its return value, which is falsy
    ([None]) or a buffer, taken as what [JSON.parse] makes of it. *)
Inductive exec :=
| ExecThrows
| ExecReturns (stdout : option (result jsval)).

(** The process around an invocation. *)
Record Host := {
  (** [path.basename(process.argv[1])], line 21 *)
  appName : string;
  (** the answer to [npm search ngx-rocket-addon --json] *)
  npm_search : exec;
  (** how the engine prints a number inside a template literal *)
  numberToString : float -> string
}.

(** [this._args] and [this._options] of an instance. *)
Record Instance := {
  _args : list string;
  _options : NgxCli.Options
}.

(** The effects of the commands: those of [generate], [configure] and
    discovery, and three more. *)
Inductive effect :=
| Core (e : event)
| UpdateNotifier
| ExecSync (command : string)
| FuzzyRun (args : list string) (packageManager : jsval).

Inductive failure :=
| JsError (e : error)
| ChildProcessError.

Inductive completion (A : Type) :=
| Completed (a : A)
| Failed (f : failure)
| Terminated (code : Z).
Arguments Completed {A} a.
Arguments Failed {A} f.
Arguments Terminated {A} code.

Definition P (A : Type) : Type := list effect * completion A.

#[export] Instance P_ret : MRet P := fun _ a => ([], Completed a).
#[export] Instance P_bind : MBind P := fun _ _ f m =>
  match m with
  | (t, Completed a) => let '(t', o) := f a in ((t ++ t')%list, o)
  | (t, Failed e) => (t, Failed e)
  | (t, Terminated code) => (t, Terminated code)
  end.

Definition perform (e : effect) : P unit := ([e], Completed tt).

Definition fail {A : Type} (f : failure) : P A := ([], Failed f).

Definition log (text : string) : P unit := perform (Core (ConsoleLog text)).

(** A computation of the core, inside a command. *)
Definition core {A : Type} (m : M A) : P A :=
  (List.map Core (fst m),
   match snd m with
   | Returned a => Completed a
   | Threw e => Failed (JsError e)
   | Exited code => Terminated code
   end).

Definition try {A : Type} (r : result A) : P A :=
  match r with
  | Ok a => ([], Completed a)
  | Throw e => ([], Failed (JsError e))
  end.

(** [forEach] with a callback that has effects and may throw. *)
Fixpoint forEach {A : Type} (f : A -> P unit) (l : list A) : P unit :=
  match l with
  | [] => mret tt
  | x :: rest => f x;; forEach f rest
  end.

(** [ToString], as a template literal applies it. An array prints its
    elements separated by commas, [null] and [undefined] among them as
    nothing. An object prints as [[object Object]] through
    [Object.prototype.toString], unless it has a property [toString] of
    its own: a parsed value is never callable, and the conversion then
    throws a [TypeError]. *)
Fixpoint toString (number : float -> string) (v : jsval) : result string :=
  match v with
  | JUndefined => Ok "undefined"
  | JNull => Ok "null"
  | JBool true => Ok "true"
  | JBool false => Ok "false"
  | JNum n => Ok (number n)
  | JStr s => Ok s
  | JArr items =>
      parts ← (fix join (l : list jsval) : result (list string) :=
                 match l with
                 | [] => Ok []
                 | item :: rest =>
                     part ← match item with
                            | JUndefined | JNull => Ok ""
                            | _ => toString number item
                            end;
                     parts ← join rest;
                     Ok (part :: parts)
                 end) items;
      Ok (String.concat "," parts)
  | JObj props =>
      if bool_decide (is_Some (props !! "toString")) then Throw TypeError
      else Ok "[object Object]"
  end.

Definition nl : string := String (ascii_of_nat 10) "".

(** [help], line 22, without the styling of [chalk]. *)
Definition help (appName : string) : string :=
  "Usage: " ++ appName ++ " [new|update|config|list|<script>] [options]" ++ nl.

(** [detailedHelp], lines 23-46, without the styling of [chalk]. *)
Definition detailedHelp : string :=
  String.concat nl
    [ "";
      "n, new [name]";
      "  Creates a new app.";
      "  -a, --addon                 Creates an add-on instead.";
      "  --packageManager <yarn|npm> Uses specified package manager.";
      "  --automate <json_file>      Automates prompt answers using JSON file.";
      "  --tools                     Generates only the toolchain";
      "  ";
      "u, update";
      "  Updates an existing app or add-on.";
      "  --tools                     Updates only the toolchain";
      "  ";
      "c, config";
      "  Configures add-ons to use for new apps.";
      "  All available add-ons are used by default.";
      "";
      "l, list";
      "  Lists available add-ons.";
      "  -n, --npm    Show installable add-ons on NPM";
      "  ";
      "<script>";
      "  Runs specified script from your package.json.";
      "  Works like npm run <script> with fuzzy matching";
      "" ].

(** [_help], lines 243-246. *)
Definition _help {A : Type} (h : Host) (details : bool) : P A :=
  core (emit (ConsoleLogLogo NgxCli.pkg_version));;
  core (NgxCli._exit
          (help (appName h)
             ++ (if details then detailedHelp else "Use --help for more info." ++ nl))
          None).

(** [args[0]]. *)
Definition first (args : list string) : jsval :=
  match args with
  | arg :: _ => JStr arg
  | [] => JUndefined
  end.

(** [runScript], lines 92-99. *)
Definition runScript (options : NgxCli.Options) (w : World) (h : Host)
    (args : list string) : P unit :=
  if negb (truthy (first args)) then _help h false
  else
    let packageManager := NgxCli._packageManager options w in
    perform (FuzzyRun args packageManager).

Definition searchCommand : string := "npm search " ++ NgxCli.addonKey ++ " --json".

(** [blacklistedNpmAddons.indexOf(name) === -1]. *)
Definition notBlacklisted (name : jsval) : bool :=
  negb (existsb (strictEqStr name) blacklistedNpmAddons).

(** Lines 171-173 of [list]: search the registry, parse, and drop the
    blacklisted packages. [filter] is a method of arrays only. *)
Definition npmAddons (h : Host) : P (list jsval) :=
  perform (ExecSync searchCommand);;
  addons ← match npm_search h with
           | ExecThrows => fail ChildProcessError
           | ExecReturns stdout => mret stdout
           end;
  addons ← match addons with
           | Some parsed => try parsed
           | None => mret (JArr [])
           end;
  match addons with
  | JArr items =>
      try (filterM (fun addon => name ← member addon "name"; Ok (notBlacklisted name)) items)
  | _ => fail (JsError TypeError)
  end.

(** [figures.tick]. *)
Definition tick : string := "✔".

(** The line of line 184: each substitution is read and converted in
    turn. *)
Definition npmLine (h : Host) (addon : jsval) : P unit :=
  name ← try (member addon "name" ≫= toString (numberToString h));
  version ← try (member addon "version" ≫= toString (numberToString h));
  description ← try (member addon "description" ≫= toString (numberToString h));
  log ("  " ++ name ++ "@" ++ version ++ " - " ++ description).

(** The line of line 186. *)
Definition localLine (disabled : gmap string bool) (addon : string) : P unit :=
  log ((if NgxCli.isDisabled disabled addon then " " else tick) ++ " " ++ addon).

(** [list], lines 168-188; [addons] holds registry entries in one
    branch and identifiers in the other. *)
Definition list_ (w : World) (h : Host) (npm : bool) : P unit :=
  addons ← (if npm then
              entries ← npmAddons h; mret (inl entries)
            else
              identifiers ← core (NgxCli._findAddons w); mret (inr identifiers));
  let disabled := store w in
  log ("Available add-ons" ++ (if npm then " on NPM" else "") ++ ":");;
  match addons : list jsval + list string with
  | inl entries =>
      if Nat.eqb (length entries) 0 then log "  No add-ons found."
      else forEach (npmLine h) entries
  | inr identifiers =>
      if Nat.eqb (length identifiers) 0 then log "  No add-ons found."
      else forEach (localLine disabled) identifiers
  end.

(** [run], lines 67-90. *)
Definition run (cli : Instance) (w : World) (h : Host) : P unit :=
  perform UpdateNotifier;;
  if NgxCli.help (_options cli) then _help h true
  else
    match _args cli with
    | command :: rest =>
        if String.eqb command "n" || String.eqb command "new" then
          core (NgxCli.generate (_options cli) w false rest (NgxCli.addon (_options cli)))
        else if String.eqb command "u" || String.eqb command "update" then
          core (NgxCli.generate (_options cli) w true rest (NgxCli.addon (_options cli)))
        else if String.eqb command "c" || String.eqb command "config" then
          core (NgxCli.configure w)
        else if String.eqb command "l" || String.eqb command "list" then
          list_ w h (NgxCli.npm (_options cli))
        else runScript (_options cli) w h (_args cli)
    | [] => runScript (_options cli) w h (_args cli)
    end.

End Cli.

(** ** More vocabulary *)

(** The manifests the walk can ask for, nearest first: one per
    non-empty prefix of the components, longest prefix first. *)
Definition candidates (components : list string) : list string :=
  List.map (fun k => FindPackageJson.packageFile (take k components))
    (rev (seq 1 (length components))).

(** A path with every backslash turned into a slash. *)
Fixpoint slashes (p : string) : string :=
  match p with
  | EmptyString => EmptyString
  | String c rest => String (if Ascii.eqb c "\" then "/"%char else c) (slashes rest)
  end.

(** The world the next invocation finds: the store holds what the last
    [set] of [disabledAddons] wrote. *)
Definition write_store (w : World) (disabled : gmap string bool) : World :=
  {| files := files w;
     yo_rc := yo_rc w;
     NGX_PACKAGE_MANAGER := NGX_PACKAGE_MANAGER w;
     generatorsMeta := generatorsMeta w;
     store := disabled;
     answers_addons := answers_addons w |}.

Definition world_after (w : World) (t : list event) : World :=
  fold_left (fun w e => match e with
                        | ConfSet key disabled =>
                            if String.eqb key NgxCli.disabledAddons
                            then write_store w disabled else w
                        | _ => w
                        end) t w.

(** The words [run] takes as commands. *)
Definition commands : list string :=
  ["n"; "new"; "u"; "update"; "c"; "config"; "l"; "list"].

(** Effects that reach outside the terminal: running a generator or a
    script, asking the user, writing the store. *)
Definition changes_something (e : Cli.effect) : bool :=
  match e with
  | Cli.Core (EnvRun _ _) | Cli.Core (Prompt _) | Cli.Core (ConfSet _ _)
  | Cli.FuzzyRun _ _ => true
  | _ => false
  end.

(** A computation that changes nothing outside the terminal and does
    not end the process. *)
Definition harmless {A : Type} (m : Cli.P A) : Prop :=
  (forall e, e ∈ fst m -> changes_something e = false) /\
  (forall code, snd m <> Cli.Terminated code).

(** [item[key]] of a registry entry, [undefined] where the read would
    throw. *)
Definition field (item : jsval) (key : string) : jsval :=
  match member item key with
  | Ok v => v
  | Throw _ => JUndefined
  end.

(** Values that are not arrays or objects. *)
Definition scalar (v : jsval) : bool :=
  match v with
  | JArr _ | JObj _ => false
  | _ => true
  end.

(** What a template literal prints for a value, where the conversion
    does not throw. *)
Definition printed (h : Cli.Host) (v : jsval) : string :=
  match Cli.toString (Cli.numberToString h) v with
  | Ok text => text
  | Throw _ => ""
  end.

(** The text of the line [list] prints for a registry entry. *)
Definition npmText (h : Cli.Host) (item : jsval) : string :=
  "  " ++ printed h (field item "name") ++ "@" ++ printed h (field item "version")
       ++ " - " ++ printed h (field item "description").

(** An identifier reads as disabled in a store: the store maps it to
    [true], or does not hold it and it names a member of
    [Object.prototype]. *)
Definition reads_disabled (disabled : gmap string bool) (addon : string) : Prop :=
  disabled !! addon = Some true \/
  (disabled !! addon = None /\ addon ∈ objectPrototype).

#[export] Instance reads_disabled_dec (disabled : gmap string bool) (addon : string) :
  Decision (reads_disabled disabled addon).
Proof. unfold reads_disabled. apply _. Defined.

(** The text of the line [list] prints for an installed add-on. *)
Definition localText (disabled : gmap string bool) (addon : string) : string :=
  (if bool_decide (reads_disabled disabled addon) then " " else Cli.tick) ++ " " ++ addon.

(** Events of the core that ask the user or write the store. *)
Definition asks_or_writes (e : event) : bool :=
  match e with
  | Prompt _ | ConfSet _ _ => true
  | _ => false
  end.

Definition isConfSet (e : event) : bool :=
  match e with
  | ConfSet _ _ => true
  | _ => false
  end.

(** More concrete worlds. *)
Module Sample2.

Definition entry (name version description : string) : jsval :=
  JObj {[ "name" := JStr name; "version" := JStr version;
          "description" := JStr description ]}.

(** A registry that answers with one add-on and the two packages of
    the generator itself. *)
Definition registry : Cli.Host := {|
  Cli.appName := "ngx";
  Cli.npm_search :=
    Cli.ExecReturns
      (Some (Ok (JArr [ entry "generator-ngx-rocket" "6.0.0" "The generator";
                        entry "generator-ngx-rocket-addon-x" "1.2.0" "An add-on";
                        entry "generator-ngx-rocket-addon" "1.0.0" "Add-on generator" ])));
  Cli.numberToString := fun _ => "0"
|}.

(** A registry search that fails. *)
Definition offline : Cli.Host := {|
  Cli.appName := "ngx";
  Cli.npm_search := Cli.ExecThrows;
  Cli.numberToString := fun _ => "0"
|}.

Definition instance (args : list string) (help : bool) : Cli.Instance :=
  {| Cli._args := args;
     Cli._options := NgxCli.constructor help false false NgxCli.Absent |}.

(** No generator installed. *)
Definition nothing_installed : World := Sample.bare Missing None.

(** Three installed add-ons, two of them named like members of
    [Object.prototype]: the packages [generator-constructor],
    [generator-A] and [generator-__proto__]. Nothing is disabled; the
    user checks [A] only. *)
Definition odd_names : World := {|
  files := fun p =>
    if String.eqb p "/lib/generator-constructor/package.json"
       || String.eqb p "/lib/generator-A/package.json"
       || String.eqb p "/lib/generator-__proto__/package.json"
    then Json (Sample.manifest ["ngx-rocket-addon"])
    else Missing;
  yo_rc := Missing;
  NGX_PACKAGE_MANAGER := None;
  generatorsMeta :=
    [ {| resolved := "/lib/generator-constructor/generators/app/index.js";
         namespace := "constructor:app" |};
      {| resolved := "/lib/generator-A/generators/app/index.js"; namespace := "A:app" |};
      {| resolved := "/lib/generator-__proto__/generators/app/index.js";
         namespace := "__proto__:app" |} ];
  store := ∅;
  answers_addons := fun _ => ["A"]
|}.

End Sample2.

(** * Properties *)

(** ** The manifest walk *)

Section FindProperties.

Import FindPackageJson.

Variable existsSync : string -> bool.

Lemma removelast_shorter (c : string) (cs : list string) :
  length (removelast (c :: cs)) = length cs.
Proof.
  revert c. induction cs as [|d cs IH]; intros c; [reflexivity|].
  change (removelast (c :: d :: cs)) with (c :: removelast (d :: cs)).
  cbn [length]. f_equal. apply IH.
Qed.

Lemma find_nil : find existsSync [] = ([Enter []], None).
Proof. now simp find. Qed.

Lemma find_hit (c : string) (cs : list string) :
  existsSync (packageFile (c :: cs)) = true ->
  find existsSync (c :: cs)
  = ([Enter (c :: cs); ExistsSync (packageFile (c :: cs))], Some (packageFile (c :: cs))).
Proof. intros H. simp find. rewrite H. reflexivity. Qed.

Lemma find_miss (c : string) (cs : list string) :
  existsSync (packageFile (c :: cs)) = false ->
  find existsSync (c :: cs)
  = (Enter (c :: cs) :: ExistsSync (packageFile (c :: cs))
       :: fst (find existsSync (removelast (c :: cs))),
     snd (find existsSync (removelast (c :: cs)))).
Proof. intros H. simp find. rewrite H. reflexivity. Qed.

(** An induction principle that follows the calls of [find]. *)
Lemma find_ind (P : list string -> list step * option string -> Prop) :
  P [] ([Enter []], None) ->
  (forall c cs,
      existsSync (packageFile (c :: cs)) = true ->
      P (c :: cs)
        ([Enter (c :: cs); ExistsSync (packageFile (c :: cs))],
         Some (packageFile (c :: cs)))) ->
  (forall c cs,
      existsSync (packageFile (c :: cs)) = false ->
      P (removelast (c :: cs)) (find existsSync (removelast (c :: cs))) ->
      P (c :: cs)
        (Enter (c :: cs) :: ExistsSync (packageFile (c :: cs))
           :: fst (find existsSync (removelast (c :: cs))),
         snd (find existsSync (removelast (c :: cs))))) ->
  forall cs, P cs (find existsSync cs).
Proof.
  intros Hnil Hhit Hmiss cs.
  remember (length cs) as n eqn:Hn. revert cs Hn.
  induction n as [n IH] using lt_wf_ind. intros cs Hn.
  destruct cs as [|c cs].
  - rewrite find_nil. exact Hnil.
  - destruct (existsSync (packageFile (c :: cs))) eqn:E.
    + rewrite (find_hit _ _ E). now apply Hhit.
    + rewrite (find_miss _ _ E). apply Hmiss; [exact E|].
      apply (IH (length cs)); [simpl in Hn; lia|].
      symmetry. apply removelast_shorter.
Qed.

Lemma calls_step (a : list string) (f : string) (t : list step) :
  calls (Enter a :: ExistsSync f :: t) = a :: calls t.
Proof. reflexivity. Qed.

Lemma probes_step (a : list string) (f : string) (t : list step) :
  probes (Enter a :: ExistsSync f :: t) = f :: probes t.
Proof. reflexivity. Qed.

Lemma find_calls_head (cs : list string) :
  head (calls (fst (find existsSync cs))) = Some cs.
Proof. apply (find_ind (fun cs r => head (calls (fst r)) = Some cs)); reflexivity. Qed.

Lemma find_calls_drop (cs : list string) :
  drops_last (calls (fst (find existsSync cs))).
Proof.
  apply (find_ind (fun cs r => drops_last (calls (fst r))));
    [exact I | intros; exact I |].
  intros c l _ IH. cbn [fst]. rewrite calls_step.
  pose proof (find_calls_head (removelast (c :: l))) as Hh.
  pose proof (removelast_shorter c l) as Hlen.
  remember (removelast (c :: l)) as l' eqn:Hl'.
  destruct (calls (fst (find existsSync l'))) as [|b rest]; [discriminate|].
  injection Hh as ->. cbn [drops_last]. split; [exact Hl'|]. split; [|exact IH].
  rewrite Hlen. cbn [length]. lia.
Qed.

Lemma find_calls_length (cs : list string) :
  length (calls (fst (find existsSync cs))) <= length cs + 1.
Proof.
  apply (find_ind (fun cs r => length (calls (fst r)) <= length cs + 1));
    [cbn; lia | intros; cbn; lia |].
  intros c l _. cbn [fst]. rewrite calls_step, removelast_shorter. cbn [length]. lia.
Qed.

Lemma find_probes_length (cs : list string) :
  length (probes (fst (find existsSync cs))) <= length cs.
Proof.
  apply (find_ind (fun cs r => length (probes (fst r)) <= length cs));
    [cbn; lia | intros; cbn; lia |].
  intros c l _. cbn [fst]. rewrite probes_step, removelast_shorter. cbn [length]. lia.
Qed.

Lemma find_some (cs : list string) (f : string) :
  snd (find existsSync cs) = Some f ->
  existsSync f = true /\ f ∈ probes (fst (find existsSync cs)).
Proof.
  apply (find_ind (fun cs r => snd r = Some f ->
                               existsSync f = true /\ f ∈ probes (fst r))).
  - discriminate.
  - intros c l E [= <-]. split; [exact E|]. apply list_elem_of_here.
  - intros c l _ IH H. destruct (IH H) as [H1 H2]. split; [exact H1|].
    cbn [fst]. rewrite probes_step. apply list_elem_of_further. exact H2.
Qed.

Lemma find_none (cs : list string) :
  snd (find existsSync cs) = None ->
  length (probes (fst (find existsSync cs))) = length cs /\
  (forall f, f ∈ probes (fst (find existsSync cs)) -> existsSync f = false).
Proof.
  apply (find_ind (fun cs r => snd r = None ->
                               length (probes (fst r)) = length cs /\
                               (forall f, f ∈ probes (fst r) -> existsSync f = false))).
  - intros _. split; [reflexivity|]. intros f Hf. inversion Hf.
  - discriminate.
  - intros c l E IH H. destruct (IH H) as [H1 H2]. cbn [fst snd] in *.
    rewrite removelast_shorter in H1. rewrite probes_step. split.
    + cbn [length]. now rewrite H1.
    + intros f Hf.
      apply elem_of_cons in Hf as [-> | Hf]; [exact E|]. now apply H2.
Qed.

Lemma find_none_root (c : string) (cs : list string) :
  snd (find existsSync (c :: cs)) = None ->
  last (probes (fst (find existsSync (c :: cs)))) = Some (packageFile [c]).
Proof.
  intros Hnone.
  refine (find_ind (fun l r => forall c cs, l = c :: cs -> snd r = None ->
                              last (probes (fst r)) = Some (packageFile [c]))
            _ _ _ (c :: cs) c cs eq_refl Hnone); clear.
  - discriminate.
  - discriminate.
  - intros c l E IH c' cs' [= <- <-] H. cbn [fst snd] in *.
    rewrite probes_step.
    destruct l as [|d l].
    + change (removelast [c]) with (@nil string). rewrite find_nil. reflexivity.
    + change (removelast (c :: d :: l)) with (c :: removelast (d :: l)) in *.
      specialize (IH c _ eq_refl H).
      destruct (probes (fst (find existsSync (c :: removelast (d :: l))))) eqn:E';
        [discriminate|]. exact IH.
Qed.

Lemma find_calls_keep_head (c : string) (cs x : list string) :
  x ∈ calls (fst (find existsSync (c :: cs))) -> x = [] \/ head x = Some c.
Proof.
  refine (find_ind (fun l r => forall c cs, l = c :: cs ->
                              forall x, x ∈ calls (fst r) -> x = [] \/ head x = Some c)
            _ _ _ (c :: cs) c cs eq_refl x); clear.
  - discriminate.
  - intros c l E c' cs' [= <- <-] y Hy. cbn in Hy.
    apply list_elem_of_singleton in Hy. subst. now right.
  - intros c l E IH c' cs' [= <- <-] y Hy. cbn [fst] in Hy. rewrite calls_step in Hy.
    apply elem_of_cons in Hy as [-> | Hy]; [now right|].
    destruct l as [|d l].
    + change (removelast [c]) with (@nil string) in Hy. rewrite find_nil in Hy.
      cbn in Hy. apply list_elem_of_singleton in Hy. now left.
    + change (removelast (c :: d :: l)) with (c :: removelast (d :: l)) in *.
      exact (IH c _ eq_refl y Hy).
Qed.

Lemma components_of_length (basePath : string) :
  length (components_of basePath) = length (Path.split isSeparator basePath).
Proof.
  unfold components_of. destruct (Path.split isSeparator basePath) as [|c0 rest]; [reflexivity|].
  destruct (Nat.eqb _ 0); reflexivity.
Qed.

Lemma components_of_absolute (c : ascii) (rest : string) :
  isSeparator c = true ->
  exists tail, components_of (String c rest) = Path.sep :: tail.
Proof.
  intros H. unfold components_of. cbn [Path.split]. rewrite H. cbn. eauto.
Qed.

End FindProperties.

(** C10. The walk of [_findPackageJson] ends on every path string: the
    function is total; its first call of [find] is on the components of
    the path, every later call on the previous list without its last
    element, which is strictly shorter; for a path of N components there
    are at most N+1 calls; and the result is [null] or a manifest file
    that exists. *)
Theorem C10_walk_terminates (existsSync : string -> bool) (basePath : string) :
  let components := FindPackageJson.components_of basePath in
  let run := FindPackageJson._findPackageJson_log existsSync basePath in
  let entered := FindPackageJson.calls (fst run) in
  FindPackageJson._findPackageJson existsSync basePath = snd run /\
  head entered = Some components /\
  FindPackageJson.drops_last entered /\
  length entered <= length components + 1 /\
  (snd run = None \/ exists file, snd run = Some file /\ existsSync file = true).
Proof.
  cbn zeta. unfold FindPackageJson._findPackageJson, FindPackageJson._findPackageJson_log.
  split; [reflexivity|].
  split; [apply find_calls_head|].
  split; [apply find_calls_drop|].
  split; [apply find_calls_length|].
  destruct (snd (FindPackageJson.find existsSync (FindPackageJson.components_of basePath)))
    as [file|] eqn:E; [right|left; reflexivity].
  exists file. split; [reflexivity|]. now apply find_some in E.
Qed.

(** ** Truthiness and [includes] on sample values *)

Example truthy_values :
  List.map truthy
    [JUndefined; JNull; JBool false; JNum 0; JNum (-0); JNum nan; JStr "";
     JBool true; JNum 1.5; JStr "0"; JArr []; JObj ∅]
  = [false; false; false; false; false; false; false; true; true; true; true; true].
Proof. vm_compute. reflexivity. Qed.

Example includes_values :
  (includes (JArr [JStr "ngx"; JStr "ngx-rocket-addon"]) "ngx-rocket-addon",
   includes (JArr [JStr "ngx-rocket-addons"]) "ngx-rocket-addon",
   includes (JStr "ngx, ngx-rocket-addon") "ngx-rocket-addon",
   includes (JBool true) "ngx-rocket-addon")
  = (Ok true, Ok false, Ok true, Throw TypeError).
Proof. vm_compute. reflexivity. Qed.

(** ** The package manager *)

Section PackageManager.

Import NgxCli.

Variable w : World.

Lemma packageManager_no_flag (options : Options) :
  truthy (packageManager options) = false ->
  _packageManager options w
  = or (or (recorded w) (env_value (NGX_PACKAGE_MANAGER w))) (JStr "npm").
Proof. intros H. unfold _packageManager. now rewrite H. Qed.

(** A key declared [boolean] holds a boolean, and no boolean is
    [=== 'yarn']. *)
Lemma packageManager_flag_set (help npm addon : bool) (flag : spelling) :
  minimist_boolean flag = true ->
  _packageManager (constructor help npm addon flag) w = JStr "npm".
Proof. intros H. unfold _packageManager, constructor. cbn. now rewrite H. Qed.

(** Had the option kept the word that follows it, line 229 would give
    [yarn] for [yarn] and [npm] for any other word. *)
Lemma packageManager_string_option (help npm addon : bool) (word : string) :
  word <> "" ->
  _packageManager
    {| help := help; npm := npm; addon := addon; packageManager := JStr word |} w
  = if String.eqb word "yarn" then JStr "yarn" else JStr "npm".
Proof.
  intros H. unfold _packageManager. cbn.
  destruct (String.eqb_spec word ""); [contradiction|]. reflexivity.
Qed.

Lemma packageManager_recorded (options : Options) :
  truthy (packageManager options) = false ->
  truthy (recorded w) = true ->
  _packageManager options w = recorded w.
Proof.
  intros H1 H2. rewrite (packageManager_no_flag _ H1). unfold or. now rewrite H2, H2.
Qed.

Lemma packageManager_variable (options : Options) (value : string) :
  truthy (packageManager options) = false ->
  truthy (recorded w) = false ->
  NGX_PACKAGE_MANAGER w = Some value ->
  value <> "" ->
  _packageManager options w = JStr value.
Proof.
  intros H1 H2 H3 H4. rewrite (packageManager_no_flag _ H1). unfold or.
  rewrite H2, H3. cbn. destruct (String.eqb_spec value ""); [contradiction|]. reflexivity.
Qed.

Lemma packageManager_default (options : Options) :
  truthy (packageManager options) = false ->
  truthy (recorded w) = false ->
  NGX_PACKAGE_MANAGER w = None ->
  _packageManager options w = JStr "npm".
Proof.
  intros H1 H2 H3. rewrite (packageManager_no_flag _ H1). unfold or.
  now rewrite H2, H3.
Qed.

(** A manifest that is missing or does not parse records nothing. *)
Lemma recorded_no_manifest :
  yo_rc w = Missing \/ yo_rc w = Unreadable -> recorded w = JNull.
Proof. intros [H|H]; unfold recorded, read_yo_rc; now rewrite H. Qed.

(** The [try] block agrees with a walk along the three keys whenever it
    does not throw, and gives [null] when it does. *)
Lemma recorded_manifest (rc : jsval) :
  yo_rc w = Json rc ->
  recorded w = Lodash.baseGet rc ["generator-ngx-rocket"; "props"; "packageManager"]
  \/ recorded w = JNull.
Proof.
  intros H. unfold recorded, read_yo_rc. rewrite H.
  change (Ok rc ≫= _) with
    (generator ← member rc "generator-ngx-rocket";
     props ← member generator "props";
     member props "packageManager").
  cbn [Lodash.baseGet].
  destruct (member rc "generator-ngx-rocket") as [g|e]; [|now right].
  change (Ok g ≫= _) with (props ← member g "props"; member props "packageManager").
  destruct (member g "props") as [p|e]; [|now right].
  change (Ok p ≫= _) with (member p "packageManager").
  destruct (member p "packageManager") as [v|e]; [now left|now right].
Qed.

Lemma recorded_lacking (rc : jsval) :
  yo_rc w = Json rc ->
  Lodash.baseGet rc ["generator-ngx-rocket"; "props"; "packageManager"] = JUndefined ->
  truthy (recorded w) = false.
Proof.
  intros H1 H2. destruct (recorded_manifest _ H1) as [-> | ->]; [now rewrite H2|reflexivity].
Qed.

End PackageManager.

(** C2 (the code departs from the claim). [--packageManager yarn] and
    [--packageManager=yarn] on the command line resolve to [npm] in every
    world, whatever the project manifest and the environment variable
    say: [packageManager] is declared a boolean option in the
    constructor, so the option holds [true], which is not [=== 'yarn']. *)
Theorem C2_flag_yarn_resolves_npm (help npm addon : bool) (w : World) :
  NgxCli._packageManager
    (NgxCli.constructor help npm addon (NgxCli.FollowedBy "yarn")) w = JStr "npm" /\
  NgxCli._packageManager
    (NgxCli.constructor help npm addon (NgxCli.Equals "yarn")) w = JStr "npm".
Proof. split; now apply packageManager_flag_set. Qed.

(** The other four cases of C2 hold: a recorded [yarn], the variable
    [yarn], nothing at all, and a flag followed by another word. *)
Lemma packageManager_precedence_without_flag :
  NgxCli._packageManager Sample.no_options
    (Sample.bare (Json (Sample.rc_with {[ "packageManager" := JStr "yarn" ]})) (Some "npm"))
  = JStr "yarn" /\
  NgxCli._packageManager Sample.no_options (Sample.bare Missing (Some "yarn")) = JStr "yarn" /\
  NgxCli._packageManager Sample.no_options (Sample.bare Missing None) = JStr "npm" /\
  NgxCli._packageManager
    (NgxCli.constructor false false false (NgxCli.FollowedBy "foo"))
    (Sample.bare (Json (Sample.rc_with {[ "packageManager" := JStr "yarn" ]})) (Some "yarn"))
  = JStr "npm".
Proof. repeat split; vm_compute; reflexivity. Qed.

(** C8, as stated, fails: with no flag and no project manifest the
    variable [NGX_PACKAGE_MANAGER=pnpm] is returned as it is. *)
Lemma C8_counterexample :
  let result :=
    NgxCli._packageManager Sample.no_options (Sample.bare Missing (Some "pnpm")) in
  result = JStr "pnpm" /\ ~ yarn_or_npm result.
Proof.
  cbn zeta. split; [vm_compute; reflexivity|].
  intros [H|H]; vm_compute in H; discriminate H.
Qed.

(** C8 (amended). With the flag set the resolver returns [yarn] or
    [npm]. Without it, it returns the recorded value if truthy, else the
    variable if not empty, else [npm], none of them normalised: the
    result is [yarn] or [npm] provided the recorded value, when truthy,
    and the variable, when set and not empty, are. *)
Theorem C8_resolver_range (options : NgxCli.Options) (w : World) :
  (truthy (NgxCli.packageManager options) = true ->
   yarn_or_npm (NgxCli._packageManager options w)) /\
  (truthy (NgxCli.packageManager options) = false ->
   NgxCli._packageManager options w
   = or (or (NgxCli.recorded w) (NgxCli.env_value (NGX_PACKAGE_MANAGER w))) (JStr "npm") /\
   ((truthy (NgxCli.recorded w) = true -> yarn_or_npm (NgxCli.recorded w)) ->
    (forall value, NGX_PACKAGE_MANAGER w = Some value -> value <> "" ->
                   value = "yarn" \/ value = "npm") ->
    yarn_or_npm (NgxCli._packageManager options w))).
Proof.
  split.
  - intros H. unfold NgxCli._packageManager. rewrite H.
    destruct (strictEqStr _ _); [now left|now right].
  - intros H. split; [now apply packageManager_no_flag|].
    intros Hrec Hvar.
    destruct (truthy (NgxCli.recorded w)) eqn:E.
    + rewrite (packageManager_recorded _ _ H E). now apply Hrec.
    + destruct (NGX_PACKAGE_MANAGER w) as [value|] eqn:V.
      * destruct (String.eqb_spec value "") as [->|Hne].
        -- rewrite (packageManager_no_flag _ _ H). unfold or. rewrite E, V. now right.
        -- rewrite (packageManager_variable _ _ value H E V Hne).
           destruct (Hvar value eq_refl Hne) as [-> | ->]; [now left|now right].
      * rewrite (packageManager_default _ _ H E V). now right.
Qed.

Lemma C8_resolver_range_witness :
  truthy (NgxCli.packageManager Sample.flag_yarn) = true /\
  yarn_or_npm (NgxCli._packageManager Sample.flag_yarn (Sample.bare Missing (Some "pnpm"))) /\
  truthy (NgxCli.packageManager Sample.no_options) = false /\
  yarn_or_npm (NgxCli._packageManager Sample.no_options (Sample.bare Missing (Some "yarn"))).
Proof.
  split; [reflexivity|]. split.
  - apply (proj1 (C8_resolver_range Sample.flag_yarn (Sample.bare Missing (Some "pnpm")))).
    reflexivity.
  - split; [reflexivity|].
    apply (proj2 (C8_resolver_range Sample.no_options (Sample.bare Missing (Some "yarn")))).
    + reflexivity.
    + intros H. vm_compute in H. discriminate H.
    + intros value [= <-] _. now left.
Defined.

(** ** Discovery *)

Section Discovery.

Import NgxCli.

Variable w : World.

Lemma findAddons_unfold :
  _findAddons w
  = ([EnvLookup],
     match filterM (hasAddonKeyword w) (generatorsMeta w) with
     | Ok generators =>
         Returned (List.map (fun generator => stripApp (namespace generator)) generators)
     | Throw e => Threw e
     end).
Proof.
  unfold _findAddons. destruct (filterM _ _) as [generators|e]; reflexivity.
Qed.

Lemma findAddons_trace : trace (_findAddons w) = [EnvLookup].
Proof. now rewrite findAddons_unfold. Qed.

Lemma findAddons_returned (discovered : list string) :
  ending (_findAddons w) = Returned discovered ->
  _findAddons w = ([EnvLookup], Returned discovered).
Proof.
  intros H. rewrite (surjective_pairing (_findAddons w)).
  change (_findAddons w).1 with (trace (_findAddons w)).
  change (_findAddons w).2 with (ending (_findAddons w)).
  now rewrite findAddons_trace, H.
Qed.

(** A module without a manifest makes its callback throw. *)
Lemma hasAddonKeyword_no_manifest (generator : GeneratorMeta) :
  FindPackageJson._findPackageJson (existsSync w) (resolved generator) = None ->
  hasAddonKeyword w generator = Throw TypeError.
Proof. intros H. unfold hasAddonKeyword. now rewrite H. Qed.

Lemma filterM_throws {A : Type} (f : A -> result bool) (l : list A) (x : A) (e : error) :
  x ∈ l -> f x = Throw e -> exists e', filterM f l = Throw e'.
Proof.
  intros Hin Hx. induction l as [|y l IH]; [inversion Hin|].
  apply elem_of_cons in Hin as [<- | Hin].
  - exists e. cbn [filterM]. now rewrite Hx.
  - destruct (IH Hin) as [e' He']. cbn [filterM].
    destruct (f y) as [keep|e'']; [|now exists e''].
    exists e'. change (Ok keep ≫= _) with
      (kept ← filterM f l; Ok (if keep : bool then y :: kept else kept)).
    now rewrite He'.
Qed.

(** One module without a manifest, anywhere in the enumeration, and the
    whole scan ends in an exception. *)
Lemma findAddons_no_manifest_throws (generator : GeneratorMeta) :
  generator ∈ generatorsMeta w ->
  FindPackageJson._findPackageJson (existsSync w) (resolved generator) = None ->
  exists e, _findAddons w = ([EnvLookup], Threw e).
Proof.
  intros Hin Hnone. rewrite findAddons_unfold.
  destruct (filterM_throws (hasAddonKeyword w) _ _ TypeError Hin
              (hasAddonKeyword_no_manifest _ Hnone)) as [e He].
  exists e. now rewrite He.
Qed.

End Discovery.

(** C3 (the code departs from the claim). A generator that has no
    manifest in any directory above it comes first, an installed add-on
    second: [_findPackageJson] gives [null] for the first, [require(null)]
    throws inside the [filter] callback, and the scan ends with that
    exception instead of the list with the add-on. *)
Theorem C3_missing_manifest_aborts_scan :
  FindPackageJson._findPackageJson (NgxCli.existsSync Sample.stray_generator) "/tmp/gen/index.js"
  = None /\
  NgxCli._findAddons Sample.stray_generator = ([EnvLookup], Threw TypeError).
Proof. split; vm_compute; reflexivity. Qed.

(** Without the stray generator the same scan returns the add-on. *)
Example scan_of_installed :
  NgxCli._findAddons Sample.installed = ([EnvLookup], Returned ["A"; "B"; "C"]).
Proof. vm_compute. reflexivity. Qed.

(** ** [generate] *)

Section Generate.

Import NgxCli.

Variables (options : Options) (w : World).

Lemma generate_new (args : list string) (addon : bool) :
  generate options w false args addon
  = (ConsoleLogLogo pkg_version
       :: trace (if addon then generateAddon options w false args
                 else generateApp options w false args),
     ending (if addon then generateAddon options w false args
             else generateApp options w false args)).
Proof.
  unfold generate. cbn [negb]. destruct addon.
  - reflexivity.
  - generalize (generateApp options w false args). intros [t o]. destruct o; reflexivity.
Qed.

Lemma generate_update_missing (args : list string) (addon : bool) :
  yo_rc w = Missing ->
  generate options w true args addon
  = ([ConsoleError "No existing app found, use ngx new instead"], Exited 1%Z).
Proof. intros H. unfold generate. cbn [negb]. rewrite H. reflexivity. Qed.

Lemma generate_update_unreadable (args : list string) (addon : bool) :
  yo_rc w = Unreadable ->
  generate options w true args addon = ([], Threw SyntaxError).
Proof. intros H. unfold generate, read_yo_rc. cbn [negb]. rewrite H. reflexivity. Qed.

Lemma generate_update_json (args : list string) (addon : bool) (rc : jsval) :
  yo_rc w = Json rc ->
  generate options w true args addon
  = if truthy (Lodash.get rc "generator-ngx-rocket.props.isAddon")
    then generateAddon options w true args
    else generateApp options w true args.
Proof.
  intros H. unfold generate, read_yo_rc. cbn [negb]. rewrite H.
  unfold lift, mbind, M_bind, mret, M_ret. cbn beta iota zeta.
  now destruct (if truthy _ then _ else _) as [t o].
Qed.

Lemma generateAddon_unfold (update : bool) (args : list string) :
  generateAddon options w update args
  = ([EnvLookup;
      EnvRun ("ngx-rocket:addon"
                :: List.filter (fun arg => negb (String.eqb arg "--addon")
                                           && negb (String.eqb arg "-a")) args)
        {| run_update := update;
           run_packageManager := _packageManager options w;
           run_addons := None;
           skip_welcome := true |}],
     Returned tt).
Proof. reflexivity. Qed.

Lemma generateApp_unfold (update : bool) (args : list string) (discovered : list string) :
  ending (_findAddons w) = Returned discovered ->
  generateApp options w update args
  = ([EnvLookup; EnvLookup;
      EnvRun ("ngx-rocket" :: args)
        {| run_update := update;
           run_packageManager := _packageManager options w;
           run_addons :=
             Some (String.concat " "
                     (List.filter (fun addon => negb (isDisabled (store w) addon)) discovered));
           skip_welcome := true |};
      ConsoleLog ""],
     Returned tt).
Proof.
  intros H. unfold generateApp. rewrite (findAddons_returned _ _ H). reflexivity.
Qed.

(** In [generate] the flag in effect selects the branch; [new] prints
    the logo first. *)
Lemma generate_branch (update addon flag : bool) (args : list string) :
  addon_in_effect w update addon flag ->
  let branch := if flag then generateAddon options w update args
                else generateApp options w update args in
  trace (generate options w update args addon)
  = ((if update then [] else [ConsoleLogLogo pkg_version]) ++ trace branch)%list /\
  ending (generate options w update args addon) = ending branch.
Proof.
  intros [[-> ->] | [-> (rc & Hrc & Hflag)]]; cbn zeta.
  - rewrite generate_new. split; reflexivity.
  - rewrite (generate_update_json _ _ _ Hrc), Hflag. split; reflexivity.
Qed.

Lemma inherited_spec (key : string) : inherited key = true <-> key ∈ objectPrototype.
Proof.
  unfold inherited. rewrite existsb_exists, list_elem_of_In. split.
  - intros (x & Hin & Heq). apply String.eqb_eq in Heq. now subst.
  - intros Hin. exists key. split; [exact Hin|apply String.eqb_refl].
Qed.

Lemma isDisabled_true (disabled : gmap string bool) (addon : string) :
  isDisabled disabled addon = true <-> reads_disabled disabled addon.
Proof.
  unfold isDisabled, reads_disabled. destruct (disabled !! addon) as [[|]|].
  - split; [now left|reflexivity].
  - split; [discriminate|]. intros [H | [H _]]; discriminate H.
  - rewrite inherited_spec. split; [intros H; right; now split|].
    intros [H | [_ H]]; [discriminate H|exact H].
Qed.

(** An identifier that is not the name of a member of
    [Object.prototype] reads as disabled exactly when the store maps it
    to [true]. *)
Lemma isDisabled_own (disabled : gmap string bool) (addon : string) :
  addon ∉ objectPrototype ->
  (isDisabled disabled addon = true <-> disabled !! addon = Some true).
Proof.
  intros Hown. rewrite isDisabled_true. unfold reads_disabled. split.
  - intros [H | [_ H]]; [exact H|contradiction].
  - intros H. now left.
Qed.

End Generate.

(** When [new] or [update] runs without the add-on flag in effect and
    discovery returns [discovered], the runtime is run once, on the app
    generator, and its [addons] option is the list [discovered] without
    the identifiers that read as disabled in the store of this
    invocation, joined by spaces. Identifiers that are not names of
    members of [Object.prototype] are left out exactly when the store
    maps them to [true]. *)
Lemma generate_app_addons (options : NgxCli.Options) (w : World)
    (update : bool) (args : list string) (addon : bool) (discovered : list string) :
  addon_in_effect w update addon false ->
  ending (NgxCli._findAddons w) = Returned discovered ->
  let passed :=
    List.filter (fun a => negb (bool_decide (reads_disabled (store w) a))) discovered in
  List.filter isEnvRun (trace (NgxCli.generate options w update args addon))
  = [EnvRun ("ngx-rocket" :: args)
       {| run_update := update;
          run_packageManager := NgxCli._packageManager options w;
          run_addons := Some (String.concat " " passed);
          skip_welcome := true |}] /\
  (forall a, a ∈ passed <-> a ∈ discovered /\ ~ reads_disabled (store w) a) /\
  (forall a, a ∉ objectPrototype ->
             (a ∈ passed <-> a ∈ discovered /\ store w !! a <> Some true)).
Proof.
  intros Hflag Hfound passed.
  assert (Hmem : forall a, a ∈ passed <-> a ∈ discovered /\ ~ reads_disabled (store w) a).
  { intros a. unfold passed. rewrite !list_elem_of_In, filter_In, negb_true_iff.
    rewrite bool_decide_eq_false. reflexivity. }
  split; [|split; [exact Hmem|]].
  - destruct (generate_branch options w update addon false args Hflag) as [-> _].
    rewrite (generateApp_unfold options w update args discovered Hfound).
    replace (List.filter (fun a => negb (NgxCli.isDisabled (store w) a)) discovered)
      with passed.
    + destruct update; reflexivity.
    + unfold passed. apply filter_ext. intros a. f_equal.
      apply eq_true_iff_eq. rewrite bool_decide_eq_true. symmetry.
      apply isDisabled_true.
  - intros a Hown. rewrite Hmem.
    rewrite <- (isDisabled_own (store w) a Hown), <- isDisabled_true. reflexivity.
Qed.

Example app_addons_of_installed :
  List.filter isEnvRun
    (trace (NgxCli.generate Sample.no_options Sample.installed false ["my-app"] false))
  = [EnvRun ["ngx-rocket"; "my-app"]
       {| run_update := false;
          run_packageManager := JStr "npm";
          run_addons := Some "A C";
          skip_welcome := true |}].
Proof. vm_compute. reflexivity. Qed.

(** C1 (the code departs from the claim). Three add-ons are installed,
    [constructor], [A] and [__proto__], and the store's disabled map is
    empty, so none of them is mapped to [true]. Creating an app passes
    [A] alone: [disabled[addon]] at line 123 also reads what the map
    inherits from [Object.prototype], which is truthy under the names
    [constructor] and [__proto__], and the filter drops both. *)
Theorem C1_inherited_name_dropped :
  store Sample2.odd_names = ∅ /\
  NgxCli._findAddons Sample2.odd_names
  = ([EnvLookup], Returned ["constructor"; "A"; "__proto__"]) /\
  List.filter isEnvRun
    (trace (NgxCli.generate Sample.no_options Sample2.odd_names false [] false))
  = [EnvRun ["ngx-rocket"]
       {| run_update := false;
          run_packageManager := JStr "npm";
          run_addons := Some "A";
          skip_welcome := true |}].
Proof. repeat split; vm_compute; reflexivity. Qed.

(** C7. [update] in a working directory without [.yo-rc.json] prints
    one message on the error stream and ends the process with status 1;
    nothing else happens, so the generator runtime is neither looked up
    nor run. *)
Theorem C7_update_without_manifest (options : NgxCli.Options) (w : World)
    (args : list string) (addon : bool) :
  yo_rc w = Missing ->
  let run := NgxCli.generate options w true args addon in
  trace run = [ConsoleError "No existing app found, use ngx new instead"] /\
  ending run = Exited 1%Z /\
  (1 <> 0)%Z /\
  List.filter isEnvRun (trace run) = [].
Proof.
  intros H. cbn zeta. rewrite (generate_update_missing options w args addon H).
  repeat split. lia.
Qed.

Lemma C7_update_without_manifest_witness :
  yo_rc Sample.installed = Missing /\
  ending (NgxCli.generate Sample.no_options Sample.installed true [] false) = Exited 1%Z.
Proof.
  split; [reflexivity|].
  exact (proj1 (proj2 (C7_update_without_manifest Sample.no_options Sample.installed []
                         false eq_refl))).
Defined.

(** C9. With the add-on flag in effect (on the command line for [new];
    for [update], read from the project manifest, whatever the command
    line says) the runtime is looked up and run once, on the add-on
    generator, with the arguments other than [--addon] and [-a], the
    resolved package manager and no [addons] option; discovery and the
    store are not used. *)
Theorem C9_addon_bypasses_composition (options : NgxCli.Options) (w : World)
    (update : bool) (args : list string) (addon : bool) :
  addon_in_effect w update addon true ->
  let run := NgxCli.generate options w update args addon in
  trace run
  = ((if update then [] else [ConsoleLogLogo NgxCli.pkg_version])
       ++ [EnvLookup;
           EnvRun ("ngx-rocket:addon"
                     :: List.filter (fun arg => negb (String.eqb arg "--addon")
                                                && negb (String.eqb arg "-a")) args)
             {| run_update := update;
                run_packageManager := NgxCli._packageManager options w;
                run_addons := None;
                skip_welcome := true |}])%list /\
  ending run = Returned tt /\
  (forall a o, EnvRun a o ∈ trace run -> run_addons o = None).
Proof.
  intros Hflag. cbn zeta.
  destruct (generate_branch options w update addon true args Hflag) as [Ht Ho].
  rewrite generateAddon_unfold in Ht, Ho. cbn [trace ending fst snd] in Ht, Ho.
  split; [exact Ht|]. split; [exact Ho|].
  intros a o Hin. rewrite Ht in Hin. apply list_elem_of_In in Hin.
  destruct update; cbn [app In] in Hin; intuition (try discriminate);
    match goal with
    | E : EnvRun _ _ = EnvRun _ _ |- _ => injection E as _ <-; reflexivity
    end.
Qed.

Lemma C9_addon_bypasses_composition_witness :
  addon_in_effect Sample.addon_project true false true /\
  trace (NgxCli.generate Sample.no_options Sample.addon_project true ["--tools"] false)
  = [EnvLookup;
     EnvRun ["ngx-rocket:addon"; "--tools"]
       {| run_update := true;
          run_packageManager := JStr "npm";
          run_addons := None;
          skip_welcome := true |}].
Proof.
  assert (H : addon_in_effect Sample.addon_project true false true).
  { right. split; [reflexivity|]. eexists. split; [reflexivity|]. vm_compute. reflexivity. }
  split; [exact H|].
  exact (proj1 (C9_addon_bypasses_composition Sample.no_options Sample.addon_project true
                  ["--tools"] false H)).
Defined.

(** An [update] whose manifest is there but does not parse ends in the
    exception of [JSON.parse]. *)
Example update_unparsable_manifest :
  NgxCli.generate Sample.no_options (Sample.bare Unreadable None) true [] false
  = ([], Threw SyntaxError).
Proof. reflexivity. Qed.

(** C4, as stated, fails for the recovery of the add-on flag: with no
    [.yo-rc.json] in the working directory, [update] does not carry on as
    if the flag were absent; it prints an error and exits with status 1. *)
Lemma C4_counterexample :
  yo_rc (Sample.bare Missing None) = Missing /\
  NgxCli.generate Sample.no_options (Sample.bare Missing None) true [] false
  = ([ConsoleError "No existing app found, use ngx new instead"], Exited 1%Z).
Proof. split; reflexivity. Qed.

(** C4 (amended). Package-manager resolution takes a [.yo-rc.json] that
    is missing, does not parse, or does not lead to a [packageManager]
    along its keys as recording nothing, and goes on to the environment
    variable and then [npm]. The recovery of the add-on flag by [update]
    takes a manifest without [isAddon] as one of an app and runs the app
    branch; with no manifest at all [update] prints an error and exits
    with status 1. *)
Theorem C4_manifest_read_failures (options : NgxCli.Options) (w : World) :
  (truthy (NgxCli.packageManager options) = false ->
   (yo_rc w = Missing \/ yo_rc w = Unreadable \/
    exists rc, yo_rc w = Json rc /\
               Lodash.baseGet rc ["generator-ngx-rocket"; "props"; "packageManager"]
               = JUndefined) ->
   NgxCli._packageManager options w
   = or (NgxCli.env_value (NGX_PACKAGE_MANAGER w)) (JStr "npm")) /\
  (forall args addon rc,
      yo_rc w = Json rc ->
      Lodash.get rc "generator-ngx-rocket.props.isAddon" = JUndefined ->
      NgxCli.generate options w true args addon = NgxCli.generateApp options w true args) /\
  (forall args addon,
      yo_rc w = Missing ->
      NgxCli.generate options w true args addon
      = ([ConsoleError "No existing app found, use ngx new instead"], Exited 1%Z)).
Proof.
  split; [|split].
  - intros Hflag Hrc. rewrite (packageManager_no_flag _ _ Hflag).
    assert (Hfalsy : truthy (NgxCli.recorded w) = false).
    { destruct Hrc as [H | [H | (rc & H1 & H2)]].
      - now rewrite recorded_no_manifest by (now left).
      - now rewrite recorded_no_manifest by (now right).
      - exact (recorded_lacking w rc H1 H2). }
    unfold or at 2. now rewrite Hfalsy.
  - intros args addon rc H1 H2. rewrite (generate_update_json _ _ _ _ _ H1), H2.
    reflexivity.
  - intros args addon H. now apply generate_update_missing.
Qed.

Lemma C4_manifest_read_failures_witness :
  (truthy (NgxCli.packageManager Sample.no_options) = false /\
   yo_rc (Sample.bare Unreadable (Some "yarn")) = Unreadable /\
   NgxCli._packageManager Sample.no_options (Sample.bare Unreadable (Some "yarn"))
   = JStr "yarn") /\
  (yo_rc Sample.app_project = Json (Sample.rc_with ∅) /\
   Lodash.get (Sample.rc_with ∅) "generator-ngx-rocket.props.isAddon" = JUndefined /\
   NgxCli.generate Sample.no_options Sample.app_project true [] true
   = NgxCli.generateApp Sample.no_options Sample.app_project true []) /\
  (yo_rc Sample.installed = Missing /\
   NgxCli.generate Sample.no_options Sample.installed true [] false
   = ([ConsoleError "No existing app found, use ngx new instead"], Exited 1%Z)).
Proof.
  split; [|split].
  - split; [reflexivity|]. split; [reflexivity|].
    apply (proj1 (C4_manifest_read_failures Sample.no_options
                    (Sample.bare Unreadable (Some "yarn")))).
    + reflexivity.
    + right. left. reflexivity.
  - split; [reflexivity|]. split; [vm_compute; reflexivity|].
    apply (proj1 (proj2 (C4_manifest_read_failures Sample.no_options Sample.app_project))
             [] true (Sample.rc_with ∅)).
    + reflexivity.
    + vm_compute. reflexivity.
  - split; [reflexivity|].
    apply (proj2 (proj2 (C4_manifest_read_failures Sample.no_options Sample.installed))).
    reflexivity.
Defined.

(** ** [configure] *)

Section Configure.

Import NgxCli.

Lemma selected_spec (answers : list string) (addon : string) :
  selected answers addon = true <-> addon ∈ answers.
Proof.
  unfold selected. rewrite existsb_exists, list_elem_of_In. split.
  - intros (x & Hin & Heq). apply String.eqb_eq in Heq. now subst.
  - intros Hin. exists addon. split; [exact Hin|apply String.eqb_refl].
Qed.

(** The [reduce] of lines 160-163. *)
Lemma reduce_lookup (l : list string) (r : gmap string bool) (a : string) :
  fold_left assignTrue l r !! a
  = if bool_decide (a ∈ l /\ a <> "__proto__") then Some true else r !! a.
Proof.
  revert r. induction l as [|x l IH]; intros r.
  - cbn [fold_left]. rewrite bool_decide_eq_false_2; [reflexivity|].
    intros [H _]. inversion H.
  - cbn [fold_left]. rewrite IH.
    destruct (decide (a ∈ l /\ a <> "__proto__")) as [[Hin Hne]|Hno].
    + rewrite !bool_decide_eq_true_2; [reflexivity| |]; split;
        try assumption. now apply list_elem_of_further.
    + rewrite (bool_decide_eq_false_2 _ Hno). unfold assignTrue.
      destruct (String.eqb_spec x "__proto__") as [->|Hx].
      * rewrite bool_decide_eq_false_2; [reflexivity|].
        intros [Hin Hne]. apply Hno. split; [|exact Hne].
        apply elem_of_cons in Hin as [->|Hin]; [contradiction|exact Hin].
      * destruct (decide (a = x)) as [->|Hax].
        -- rewrite lookup_insert_eq, bool_decide_eq_true_2; [reflexivity|].
           split; [apply list_elem_of_here|exact Hx].
        -- rewrite lookup_insert_ne by congruence.
           rewrite bool_decide_eq_false_2; [reflexivity|].
           intros [Hin Hne]. apply Hno. split; [|exact Hne].
           apply elem_of_cons in Hin as [->|Hin]; [contradiction|exact Hin].
Qed.

End Configure.

(** When discovery returns [discovered] and the user leaves [chosen]
    checked, [configure] writes the store once, under [disabledAddons],
    with a map that sends every discovered add-on that was not chosen to
    [true], except [__proto__], and holds no other key. *)
Lemma configure_persists (w : World) (discovered : list string) :
  ending (NgxCli._findAddons w) = Returned discovered ->
  let choices :=
    List.map (fun a => (a, negb (NgxCli.isDisabled (store w) a))) discovered in
  let chosen := answers_addons w choices in
  exists persisted : gmap string bool,
    NgxCli.configure w
    = ([EnvLookup; Prompt choices; ConfSet "disabledAddons" persisted;
        ConsoleLog "Configuration saved."], Returned tt) /\
    (forall a, persisted !! a
               = if bool_decide (a ∈ discovered /\ (a ∉ chosen) /\ a <> "__proto__")
                 then Some true else None).
Proof.
  intros Hfound choices chosen.
  eexists. split.
  - unfold NgxCli.configure. rewrite (findAddons_returned _ _ Hfound). reflexivity.
  - intros a. rewrite reduce_lookup, lookup_empty.
    apply (f_equal (fun b : bool => if b then Some true else None)).
    apply bool_decide_ext.
    rewrite list_elem_of_In, filter_In, negb_true_iff, <- list_elem_of_In.
    rewrite <- not_true_iff_false, selected_spec. tauto.
Qed.

(** C6 (the code departs from the claim). Three add-ons are discovered,
    [constructor], [A] and [__proto__], and the user leaves [A] alone
    checked. The map that [configure] persists is [{constructor: true}]:
    the discovered add-on [__proto__] was not selected and yet is no key
    of it, because [r[addon] = true] at line 161 under the name
    [__proto__] calls the setter of [Object.prototype], which ignores
    [true], instead of adding a property. *)
Theorem C6_proto_key_not_persisted :
  NgxCli._findAddons Sample2.odd_names
  = ([EnvLookup], Returned ["constructor"; "A"; "__proto__"]) /\
  NgxCli.configure Sample2.odd_names
  = ([EnvLookup;
      Prompt [("constructor", false); ("A", true); ("__proto__", false)];
      ConfSet "disabledAddons" {[ "constructor" := true ]};
      ConsoleLog "Configuration saved."],
     Returned tt).
Proof. split; vm_compute; reflexivity. Qed.

(** The store after [configure] in the sample world is exactly
    [{B: true}]. *)
Example configure_example :
  NgxCli.configure Sample.installed
  = ([EnvLookup; Prompt [("A", true); ("B", false); ("C", true)];
      ConfSet "disabledAddons" {[ "B" := true ]}; ConsoleLog "Configuration saved."],
     Returned tt).
Proof. vm_compute. reflexivity. Qed.

(** ** The manifest walk, from the path *)

(** C5. With N the number of components of the path (the pieces between
    separators, the leading empty one of an absolute path included), the
    walk asks [fs.existsSync] at most N times; it returns [null] exactly
    when it has asked N times and no manifest was there. On a path that
    starts with a separator, every call of [find] with components left
    has the separator as its first component, and a [null] result means
    the last file asked for was [/package.json]: the root is checked. *)
Theorem C5_manifest_resolution (existsSync : string -> bool) (basePath : string) :
  let N := length (Path.split FindPackageJson.isSeparator basePath) in
  let run := FindPackageJson._findPackageJson_log existsSync basePath in
  let checked := FindPackageJson.probes (fst run) in
  length checked <= N /\
  (FindPackageJson._findPackageJson existsSync basePath = None <->
   length checked = N /\ forall f, f ∈ checked -> existsSync f = false) /\
  (forall c rest,
      basePath = String c rest ->
      FindPackageJson.isSeparator c = true ->
      (forall components,
          components ∈ FindPackageJson.calls (fst run) ->
          components = [] \/ head components = Some Path.sep) /\
      (FindPackageJson._findPackageJson existsSync basePath = None ->
       last checked = Some "/package.json")).
Proof.
  cbn zeta. unfold FindPackageJson._findPackageJson, FindPackageJson._findPackageJson_log.
  rewrite <- components_of_length.
  split; [apply find_probes_length|]. split.
  - split; [apply find_none|].
    intros [_ Hall].
    destruct (snd (FindPackageJson.find existsSync (FindPackageJson.components_of basePath)))
      as [f|] eqn:E; [|reflexivity].
    apply find_some in E as [Htrue Hin]. rewrite (Hall f Hin) in Htrue. discriminate.
  - intros c rest -> Hsep.
    destruct (components_of_absolute c rest Hsep) as [tail Htail].
    rewrite Htail in *. split.
    + intros components. apply find_calls_keep_head.
    + intros Hnone. now rewrite (find_none_root existsSync _ _ Hnone).
Qed.

Lemma C5_manifest_resolution_witness :
  FindPackageJson.isSeparator "/" = true /\
  FindPackageJson._findPackageJson (fun _ => false) "/a/b/c" = None /\
  last (FindPackageJson.probes
          (fst (FindPackageJson._findPackageJson_log (fun _ => false) "/a/b/c")))
  = Some "/package.json".
Proof.
  split; [reflexivity|]. split; [vm_compute; reflexivity|].
  apply (proj2 (proj2 (C5_manifest_resolution (fun _ => false) "/a/b/c")) "/"%char "a/b/c").
  - reflexivity.
  - reflexivity.
  - vm_compute. reflexivity.
Defined.

Example join_root : Path.join ["/"; "a"; "b"; "c"] = "/a/b/c".
Proof. reflexivity. Qed.

(** The walk from [/a/b/c] with no manifest anywhere: four components,
    four questions, the last one about the root. *)
Example find_abc :
  FindPackageJson._findPackageJson_log (fun _ => false) "/a/b/c"
  = ([FindPackageJson.Enter ["/"; "a"; "b"; "c"];
      FindPackageJson.ExistsSync "/a/b/c/package.json";
      FindPackageJson.Enter ["/"; "a"; "b"];
      FindPackageJson.ExistsSync "/a/b/package.json";
      FindPackageJson.Enter ["/"; "a"];
      FindPackageJson.ExistsSync "/a/package.json";
      FindPackageJson.Enter ["/"];
      FindPackageJson.ExistsSync "/package.json";
      FindPackageJson.Enter []], None).
Proof. vm_compute. reflexivity. Qed.

(** * Further properties of the code *)

(** ** The manifest walk: which manifest is found *)

Section Nearest.

Import FindPackageJson.

Variable existsSync : string -> bool.

Lemma candidates_step (c : string) (cs : list string) :
  candidates (c :: cs) = packageFile (c :: cs) :: candidates (removelast (c :: cs)).
Proof.
  unfold candidates. rewrite removelast_shorter.
  change (length (c :: cs)) with (S (length cs)).
  rewrite seq_S, rev_app_distr. cbn [rev app List.map].
  change (1 + length cs) with (length (c :: cs)).
  rewrite firstn_all. f_equal.
  apply map_ext_in. intros k Hk. f_equal.
  apply in_rev, in_seq in Hk.
  rewrite removelast_firstn_len, take_take. f_equal.
  cbn [length Nat.pred]. lia.
Qed.

Lemma find_is_first_candidate (cs : list string) :
  snd (find existsSync cs) = List.find existsSync (candidates cs).
Proof.
  apply (find_ind existsSync
           (fun cs r => snd r = List.find existsSync (candidates cs))).
  - reflexivity.
  - intros c l E. rewrite candidates_step. cbn [List.find snd]. now rewrite E.
  - intros c l E IH. rewrite candidates_step. cbn [List.find snd]. now rewrite E.
Qed.

Lemma split_slashes (p : string) :
  Path.split isSeparator (slashes p) = Path.split isSeparator p.
Proof.
  induction p as [|c p IH]; [reflexivity|].
  cbn [slashes Path.split]. rewrite IH.
  destruct (Ascii.eqb_spec c "\") as [->|Hne]; [reflexivity|reflexivity].
Qed.

End Nearest.

(** X1. [_findPackageJson] returns the nearest manifest: among the
    files [package.json] of the directories made of the first k
    components of the path, longest first, the first one that exists;
    [null] when none does. *)
Theorem X1_walk_finds_nearest (existsSync : string -> bool) (basePath : string) :
  FindPackageJson._findPackageJson existsSync basePath
  = List.find existsSync (candidates (FindPackageJson.components_of basePath)).
Proof. apply find_is_first_candidate. Qed.

(** X2. Backslashes separate components exactly as slashes do: the walk
    from a path is the walk from the same path written with slashes. *)
Theorem X2_separators_alike (existsSync : string -> bool) (basePath : string) :
  FindPackageJson._findPackageJson_log existsSync (slashes basePath)
  = FindPackageJson._findPackageJson_log existsSync basePath.
Proof.
  unfold FindPackageJson._findPackageJson_log, FindPackageJson.components_of.
  now rewrite split_slashes.
Qed.

(** ** Identifiers *)

Lemma string_length_app (s t : string) :
  String.length (s ++ t) = String.length s + String.length t.
Proof.
  induction s as [|c s IH]; [reflexivity|].
  change (String c s ++ t) with (String c (s ++ t)). cbn [String.length]. now rewrite IH.
Qed.

Lemma app_suffix_not_whole (c : ascii) (p : string) :
  String.eqb (String c (p ++ ":app")) ":app" = false.
Proof.
  apply String.eqb_neq. intros H. apply (f_equal String.length) in H.
  cbn [String.length] in H. rewrite string_length_app in H. cbn [String.length] in H. lia.
Qed.

(** X3. [stripApp] removes one final [:app] and nothing else: a
    namespace [p:app] gives [p], and a namespace that does not end in
    [:app] is its own identifier. *)
Theorem X3_stripApp_suffix (ns : string) :
  NgxCli.stripApp (ns ++ ":app") = ns /\
  ((forall p, ns <> p ++ ":app") -> NgxCli.stripApp ns = ns).
Proof.
  split.
  - induction ns as [|c ns IH]; [reflexivity|].
    change (String c ns ++ ":app") with (String c (ns ++ ":app")).
    cbn [NgxCli.stripApp]. now rewrite app_suffix_not_whole, IH.
  - induction ns as [|c ns IH]; intros H; [reflexivity|].
    cbn [NgxCli.stripApp].
    destruct (String.eqb_spec (String c ns) ":app") as [E|_].
    + exfalso. apply (H ""). exact E.
    + f_equal. apply IH. intros p ->. apply (H (String c p)). reflexivity.
Qed.

Lemma X3_stripApp_suffix_witness :
  (forall p, "ngx-rocket:addon" <> p ++ ":app") /\
  NgxCli.stripApp "ngx-rocket:addon" = "ngx-rocket:addon".
Proof.
  assert (H : forall p, "ngx-rocket:addon" <> p ++ ":app").
  { intros p E.
    do 12 (destruct p as [|? p]; [discriminate E|injection E as _ E]).
    destruct p as [|? p]; [discriminate E|]. injection E as _ E.
    destruct p as [|? p]; [discriminate E|]. injection E as _ E.
    destruct p as [|? p]; [discriminate E|]. injection E as _ E.
    destruct p as [|? p]; [discriminate E|]. injection E as _ E.
    destruct p; discriminate E. }
  split; [exact H|].
  exact (proj2 (X3_stripApp_suffix "ngx-rocket:addon") H).
Defined.

(** ** Discovery: which modules are add-ons *)

Section Keywords.

Import NgxCli.

Lemma strictEqStr_true (v : jsval) (s : string) :
  strictEqStr v s = true <-> v = JStr s.
Proof.
  split.
  - destruct v; try discriminate. cbn. intros H. apply String.eqb_eq in H. now subst.
  - intros ->. apply String.eqb_refl.
Qed.

Lemma substring_at_end_of_prefix (before key after : string) :
  substring (String.length before) (String.length key) (before ++ key ++ after) = key.
Proof.
  induction before as [|c before IH].
  - cbn [String.length]. change ("" ++ key ++ after) with (key ++ after).
    induction key as [|k key IHk]; [now destruct after|].
    change (String k key ++ after) with (String k (key ++ after)).
    cbn [String.length substring]. now rewrite IHk.
  - change (String c before ++ key ++ after) with (String c (before ++ key ++ after)).
    cbn [String.length substring]. exact IH.
Qed.

Lemma index_of_infix (before key after : string) :
  key <> "" -> String.index 0 key (before ++ key ++ after) <> None.
Proof.
  intros Hkey Hnone.
  apply (index_correct3 0 (String.length before) key _ Hnone Hkey); [lia|].
  apply substring_at_end_of_prefix.
Qed.

Variables (w : World) (g : GeneratorMeta) (manifest : string) (props : gmap string jsval).

Hypothesis found :
  FindPackageJson._findPackageJson (existsSync w) (resolved g) = Some manifest.
Hypothesis parsed : files w manifest = Json (JObj props).

Lemma hasAddonKeyword_of_manifest :
  hasAddonKeyword w g
  = includes (or (default JUndefined (props !! "keywords")) (JArr [])) addonKey.
Proof. unfold hasAddonKeyword, require. rewrite found, parsed. reflexivity. Qed.

End Keywords.

(** X4. A module whose nearest manifest is an object is an add-on
    exactly when its [keywords] array holds the string
    [ngx-rocket-addon] as an element; a manifest without [keywords] is
    not one, and is no error. *)
Theorem X4_keyword_exact (w : World) (g : GeneratorMeta)
    (manifest : string) (props : gmap string jsval) :
  FindPackageJson._findPackageJson (NgxCli.existsSync w) (resolved g) = Some manifest ->
  files w manifest = Json (JObj props) ->
  (props !! "keywords" = None -> NgxCli.hasAddonKeyword w g = Ok false) /\
  (forall keywords,
      props !! "keywords" = Some (JArr keywords) ->
      exists b, NgxCli.hasAddonKeyword w g = Ok b /\
                (b = true <-> JStr "ngx-rocket-addon" ∈ keywords)).
Proof.
  intros Hfound Hparsed.
  rewrite (hasAddonKeyword_of_manifest w g manifest props Hfound Hparsed).
  split.
  - intros ->. reflexivity.
  - intros keywords ->. eexists. split; [reflexivity|].
    rewrite existsb_exists, list_elem_of_In. split.
    + intros (x & Hin & Heq). apply strictEqStr_true in Heq. now subst.
    + intros Hin. exists (JStr "ngx-rocket-addon"). split; [exact Hin|reflexivity].
Qed.

Lemma X4_keyword_exact_witness :
  FindPackageJson._findPackageJson (NgxCli.existsSync Sample.installed)
    "/lib/generator-D/generators/app/index.js"
  = Some "/lib/generator-D/package.json" /\
  exists b,
    NgxCli.hasAddonKeyword Sample.installed
      {| resolved := "/lib/generator-D/generators/app/index.js"; namespace := "D:app" |}
    = Ok b /\
    (b = true <-> JStr "ngx-rocket-addon" ∈ [JStr "yeoman-generator"]).
Proof.
  assert (H : FindPackageJson._findPackageJson (NgxCli.existsSync Sample.installed)
                "/lib/generator-D/generators/app/index.js"
              = Some "/lib/generator-D/package.json") by (vm_compute; reflexivity).
  split; [exact H|].
  apply (proj2 (X4_keyword_exact Sample.installed
                  {| resolved := "/lib/generator-D/generators/app/index.js";
                     namespace := "D:app" |}
                  "/lib/generator-D/package.json"
                  {[ "keywords" := JArr [JStr "yeoman-generator"] ]} H eq_refl)).
  reflexivity.
Defined.

(** X5. When [keywords] is not an array: a string counts as soon as
    [ngx-rocket-addon] occurs anywhere inside it, and [true] or an object
    makes the test throw a [TypeError]. *)
Theorem X5_keywords_not_array (w : World) (g : GeneratorMeta)
    (manifest : string) (props : gmap string jsval) :
  FindPackageJson._findPackageJson (NgxCli.existsSync w) (resolved g) = Some manifest ->
  files w manifest = Json (JObj props) ->
  (forall before after,
      props !! "keywords" = Some (JStr (before ++ "ngx-rocket-addon" ++ after)) ->
      NgxCli.hasAddonKeyword w g = Ok true) /\
  (forall v,
      props !! "keywords" = Some v ->
      v = JBool true \/ (exists o, v = JObj o) ->
      NgxCli.hasAddonKeyword w g = Throw TypeError).
Proof.
  intros Hfound Hparsed.
  rewrite (hasAddonKeyword_of_manifest w g manifest props Hfound Hparsed).
  split.
  - intros before after ->. cbn [default from_option id].
    assert (Hne : String.eqb (before ++ "ngx-rocket-addon" ++ after) "" = false)
      by (now destruct before).
    unfold or. cbn [truthy]. rewrite Hne. cbn [negb includes].
    fold NgxCli.addonKey.
    destruct (String.index 0 NgxCli.addonKey (before ++ NgxCli.addonKey ++ after)) eqn:E;
      [reflexivity|].
    exfalso. revert E. apply index_of_infix. discriminate.
  - intros v -> [-> | (o & ->)]; reflexivity.
Qed.

Lemma X5_keywords_not_array_witness :
  let w := {| files := fun p => if String.eqb p "/x/package.json"
                                then Json (JObj {[ "keywords" := JStr "not-a-ngx-rocket-addon-at-all" ]})
                                else Missing;
              yo_rc := Missing; NGX_PACKAGE_MANAGER := None;
              generatorsMeta := []; store := ∅; answers_addons := fun _ => [] |} in
  FindPackageJson._findPackageJson (NgxCli.existsSync w) "/x" = Some "/x/package.json" /\
  NgxCli.hasAddonKeyword w {| resolved := "/x"; namespace := "x" |} = Ok true.
Proof.
  cbn zeta.
  match goal with |- ?F = _ /\ _ => assert (H : F = Some "/x/package.json")
                                      by (vm_compute; reflexivity) end.
  split; [exact H|].
  apply (proj1 (X5_keywords_not_array _ {| resolved := "/x"; namespace := "x" |}
                  "/x/package.json"
                  {[ "keywords" := JStr "not-a-ngx-rocket-addon-at-all" ]} H eq_refl)
           "not-a-" "-at-all").
  reflexivity.
Defined.

Section DiscoveryResult.

Import NgxCli.

Lemma filterM_all_ok {A : Type} (f : A -> result bool) (l : list A) :
  (forall x, x ∈ l -> exists b, f x = Ok b) ->
  filterM f l
  = Ok (List.filter (fun x => match f x with Ok b => b | Throw _ => false end) l).
Proof.
  induction l as [|x l IH]; intros H; [reflexivity|].
  cbn [filterM List.filter].
  destruct (H x (list_elem_of_here _ _)) as [b Hb]. rewrite Hb.
  change (Ok b ≫= _) with
    (kept ← filterM f l; Ok (if b : bool then x :: kept else kept)).
  rewrite IH by (intros y Hy; apply H; now apply list_elem_of_further).
  reflexivity.
Qed.

Lemma filterM_ok_inv {A : Type} (f : A -> result bool) (l kept : list A) :
  filterM f l = Ok kept -> forall x, x ∈ l -> exists b, f x = Ok b.
Proof.
  intros H x Hin. destruct (f x) as [b|e] eqn:E; [now exists b|].
  destruct (filterM_throws f l x e Hin E) as [e' He']. congruence.
Qed.

End DiscoveryResult.

(** X6. Discovery returns exactly when the keyword test of every
    enumerated module returns; what it returns is then the identifiers
    of the modules that pass the test, in the order of the enumeration
    and with repetitions kept. *)
Theorem X6_discovery_result (w : World) :
  let passes g :=
    match NgxCli.hasAddonKeyword w g with Ok b => b | Throw _ => false end in
  ((exists discovered, ending (NgxCli._findAddons w) = Returned discovered) <->
   (forall g, g ∈ generatorsMeta w -> exists b, NgxCli.hasAddonKeyword w g = Ok b)) /\
  (forall discovered,
      ending (NgxCli._findAddons w) = Returned discovered ->
      discovered
      = List.map (fun g => NgxCli.stripApp (namespace g))
          (List.filter passes (generatorsMeta w))).
Proof.
  cbn zeta. rewrite findAddons_unfold. cbn [ending snd].
  destruct (filterM (NgxCli.hasAddonKeyword w) (generatorsMeta w)) as [kept|e] eqn:E.
  - pose proof (filterM_ok_inv _ _ _ E) as Hall.
    rewrite (filterM_all_ok _ _ Hall) in E. injection E as <-.
    split.
    + split; [intros _; exact Hall|intros _; eauto].
    + intros discovered [= <-]. reflexivity.
  - split.
    + split; [intros [d Hd]; discriminate Hd|].
      intros Hall. rewrite (filterM_all_ok _ _ Hall) in E. discriminate E.
    + intros discovered Hd. discriminate Hd.
Qed.

Lemma X6_discovery_result_witness :
  ending (NgxCli._findAddons Sample.installed) = Returned ["A"; "B"; "C"] /\
  ["A"; "B"; "C"]
  = List.map (fun g => NgxCli.stripApp (namespace g))
      (List.filter
         (fun g => match NgxCli.hasAddonKeyword Sample.installed g with
                   | Ok b => b
                   | Throw _ => false
                   end)
         (generatorsMeta Sample.installed)).
Proof.
  assert (H : ending (NgxCli._findAddons Sample.installed) = Returned ["A"; "B"; "C"])
    by (vm_compute; reflexivity).
  split; [exact H|].
  exact (proj2 (X6_discovery_result Sample.installed) ["A"; "B"; "C"] H).
Defined.

(** ** The package manager: project record and variable *)

(** X7. Without the flag, a truthy [packageManager] recorded under
    [generator-ngx-rocket.props] of the project manifest is the result,
    whatever the environment variable holds. *)
Theorem X7_record_over_variable (options : NgxCli.Options) (w : World)
    (rc generator props : gmap string jsval) (recorded : jsval) :
  truthy (NgxCli.packageManager options) = false ->
  yo_rc w = Json (JObj rc) ->
  rc !! "generator-ngx-rocket" = Some (JObj generator) ->
  generator !! "props" = Some (JObj props) ->
  props !! "packageManager" = Some recorded ->
  truthy recorded = true ->
  NgxCli._packageManager options w = recorded.
Proof.
  intros Hflag Hrc Hg Hp Hpm Htruthy.
  assert (Hrec : NgxCli.recorded w = recorded).
  { unfold NgxCli.recorded, NgxCli.read_yo_rc. rewrite Hrc.
    cbn [mbind result_bind member]. rewrite Hg.
    cbn [default from_option id mbind result_bind member]. rewrite Hp.
    cbn [default from_option id mbind result_bind member]. now rewrite Hpm. }
  rewrite (packageManager_recorded w options Hflag); rewrite Hrec; [reflexivity|exact Htruthy].
Qed.

Lemma X7_record_over_variable_witness :
  truthy (NgxCli.packageManager Sample.no_options) = false /\
  NgxCli._packageManager Sample.no_options
    (Sample.bare (Json (Sample.rc_with {[ "packageManager" := JStr "yarn" ]})) (Some "npm"))
  = JStr "yarn".
Proof.
  split; [reflexivity|].
  apply (X7_record_over_variable Sample.no_options
           (Sample.bare (Json (Sample.rc_with {[ "packageManager" := JStr "yarn" ]}))
              (Some "npm"))
           {[ "generator-ngx-rocket" := JObj {[ "props" := JObj {[ "packageManager" := JStr "yarn" ]} ]} ]}
           {[ "props" := JObj {[ "packageManager" := JStr "yarn" ]} ]}
           {[ "packageManager" := JStr "yarn" ]} (JStr "yarn"));
    reflexivity.
Defined.

(** X8. An environment variable that is set to the empty string counts
    as not set: without the flag the result is then the recorded value
    if truthy and [npm] otherwise. *)
Theorem X8_empty_variable (options : NgxCli.Options) (w : World) :
  truthy (NgxCli.packageManager options) = false ->
  NGX_PACKAGE_MANAGER w = Some "" \/ NGX_PACKAGE_MANAGER w = None ->
  NgxCli._packageManager options w = or (NgxCli.recorded w) (JStr "npm").
Proof.
  intros Hflag Hvar. rewrite (packageManager_no_flag w options Hflag).
  unfold or. destruct (truthy (NgxCli.recorded w)) eqn:E.
  - now rewrite E.
  - destruct Hvar as [-> | ->]; reflexivity.
Qed.

Lemma X8_empty_variable_witness :
  truthy (NgxCli.packageManager Sample.no_options) = false /\
  NGX_PACKAGE_MANAGER (Sample.bare Missing (Some "")) = Some "" /\
  NgxCli._packageManager Sample.no_options (Sample.bare Missing (Some "")) = JStr "npm".
Proof.
  split; [reflexivity|]. split; [reflexivity|].
  apply (X8_empty_variable Sample.no_options (Sample.bare Missing (Some ""))).
  - reflexivity.
  - left. reflexivity.
Defined.

(** ** [generate]: what it does in every case *)

Section GenerateCases.

Import NgxCli.

Variables (options : Options) (w : World).

Lemma generateApp_cases (update : bool) (args : list string) :
  (exists e, generateApp options w update args = ([EnvLookup], Threw e)) \/
  (exists o, generateApp options w update args
             = ([EnvLookup; EnvLookup; EnvRun ("ngx-rocket" :: args) o; ConsoleLog ""],
                Returned tt)).
Proof.
  unfold generateApp. rewrite findAddons_unfold.
  destruct (filterM (hasAddonKeyword w) (generatorsMeta w)) as [kept|e].
  - right. eexists. reflexivity.
  - left. exists e. reflexivity.
Qed.

(** The five ways [generate] can go. *)
Lemma generate_cases (update : bool) (args : list string) (addon : bool) :
  let before := if update then [] else [ConsoleLogLogo pkg_version] in
  generate options w update args addon
  = ([ConsoleError "No existing app found, use ngx new instead"], Exited 1%Z) \/
  generate options w update args addon = ([], Threw SyntaxError) \/
  (exists a o, generate options w update args addon
               = ((before ++ [EnvLookup; EnvRun a o])%list, Returned tt)) \/
  (exists e, generate options w update args addon
             = ((before ++ [EnvLookup])%list, Threw e)) \/
  (exists a o, generate options w update args addon
               = ((before ++ [EnvLookup; EnvLookup; EnvRun a o; ConsoleLog ""])%list,
                  Returned tt)).
Proof.
  cbn zeta.
  assert (Hbranch : forall flag : bool,
             let branch := if flag then generateAddon options w update args
                           else generateApp options w update args in
             (exists a o, branch = ([EnvLookup; EnvRun a o], Returned tt)) \/
             (exists e, branch = ([EnvLookup], Threw e)) \/
             (exists a o, branch
                          = ([EnvLookup; EnvLookup; EnvRun a o; ConsoleLog ""], Returned tt))).
  { intros [|]; cbn zeta.
    - left. rewrite generateAddon_unfold. eauto.
    - destruct (generateApp_cases update args) as [[e ->] | [o ->]]; eauto. }
  destruct update.
  - destruct (yo_rc w) as [| |rc] eqn:Hrc.
    + left. now apply generate_update_missing.
    + right. left. now apply generate_update_unreadable.
    + right. right. rewrite (generate_update_json _ _ _ _ _ Hrc). apply Hbranch.
  - right. right. rewrite generate_new.
    destruct (Hbranch addon) as [(a & o & ->) | [(e & ->) | (a & o & ->)]];
      [left|right; left|right; right]; eauto.
Qed.

End GenerateCases.

(** X9. [update] does not look at the add-on flag of the command line:
    whatever the manifest is, the outcome is the same with the flag and
    without it. *)
Theorem X9_update_ignores_flag (options : NgxCli.Options) (w : World)
    (args : list string) (addon addon' : bool) :
  NgxCli.generate options w true args addon = NgxCli.generate options w true args addon'.
Proof. reflexivity. Qed.

(** X10. [generate] never asks the user and never writes the store; it
    runs the generator runtime exactly once when it returns, and not at
    all when it ends in an exception or in an exit. *)
Theorem X10_generate_runs_once (options : NgxCli.Options) (w : World)
    (update : bool) (args : list string) (addon : bool) :
  let run := NgxCli.generate options w update args addon in
  (forall e, e ∈ trace run -> asks_or_writes e = false) /\
  (ending run = Returned tt -> length (List.filter isEnvRun (trace run)) = 1) /\
  (ending run <> Returned tt -> List.filter isEnvRun (trace run) = []).
Proof.
  cbn zeta.
  destruct (generate_cases options w update args addon)
    as [-> | [-> | [(a & o & ->) | [(e & ->) | (a & o & ->)]]]];
    (split; [intros x Hx; apply list_elem_of_In in Hx;
             destruct update; cbn in Hx; intuition (subst; reflexivity)
            |split; [intros H; try discriminate H; destruct update; reflexivity
                    |intros H; try (now destruct update); now contradiction H]]).
Qed.

Lemma X10_generate_runs_once_witness :
  ending (NgxCli.generate Sample.no_options Sample.installed false ["my-app"] false)
  = Returned tt /\
  length (List.filter isEnvRun
            (trace (NgxCli.generate Sample.no_options Sample.installed false ["my-app"] false)))
  = 1.
Proof.
  assert (H : ending (NgxCli.generate Sample.no_options Sample.installed false ["my-app"] false)
              = Returned tt) by (vm_compute; reflexivity).
  split; [exact H|].
  exact (proj1 (proj2 (X10_generate_runs_once Sample.no_options Sample.installed false
                         ["my-app"] false)) H).
Defined.

(** X11. When the add-on flag is not in effect and some enumerated
    module has no manifest, [generate] ends in the exception of discovery
    and the generator runtime is not run. *)
Theorem X11_failed_discovery_blocks_generation (options : NgxCli.Options) (w : World)
    (update : bool) (args : list string) (addon : bool) (g : GeneratorMeta) :
  addon_in_effect w update addon false ->
  g ∈ generatorsMeta w ->
  FindPackageJson._findPackageJson (NgxCli.existsSync w) (resolved g) = None ->
  exists e,
    ending (NgxCli.generate options w update args addon) = Threw e /\
    List.filter isEnvRun (trace (NgxCli.generate options w update args addon)) = [].
Proof.
  intros Hflag Hin Hnone.
  destruct (findAddons_no_manifest_throws w g Hin Hnone) as [e He].
  destruct (generate_branch options w update addon false args Hflag) as [Ht Ho].
  assert (Happ : NgxCli.generateApp options w update args = ([EnvLookup], Threw e))
    by (unfold NgxCli.generateApp; now rewrite He).
  rewrite Happ in Ht, Ho. exists e. split; [exact Ho|].
  rewrite Ht. now destruct update.
Qed.

Lemma X11_failed_discovery_blocks_generation_witness :
  addon_in_effect Sample.stray_generator false false false /\
  exists e,
    ending (NgxCli.generate Sample.no_options Sample.stray_generator false [] false)
    = Threw e /\
    List.filter isEnvRun
      (trace (NgxCli.generate Sample.no_options Sample.stray_generator false [] false)) = [].
Proof.
  assert (H : addon_in_effect Sample.stray_generator false false false)
    by (left; now split).
  split; [exact H|].
  apply (X11_failed_discovery_blocks_generation Sample.no_options Sample.stray_generator
           false [] false {| resolved := "/tmp/gen/index.js"; namespace := "gen:app" |} H).
  - apply list_elem_of_here.
  - vm_compute. reflexivity.
Defined.

(** X12. [update] in a directory whose [.yo-rc.json] is there but
    cannot be parsed ends in the [SyntaxError] of [JSON.parse]: nothing
    is printed and the generator runtime is not run. *)
Theorem X12_update_unparsable_manifest (options : NgxCli.Options) (w : World)
    (args : list string) (addon : bool) :
  yo_rc w = Unreadable ->
  NgxCli.generate options w true args addon = ([], Threw SyntaxError).
Proof. apply generate_update_unreadable. Qed.

Lemma X12_update_unparsable_manifest_witness :
  yo_rc (Sample.bare Unreadable None) = Unreadable /\
  NgxCli.generate Sample.no_options (Sample.bare Unreadable None) true ["--tools"] true
  = ([], Threw SyntaxError).
Proof.
  split; [reflexivity|].
  now apply (X12_update_unparsable_manifest Sample.no_options (Sample.bare Unreadable None)).
Defined.

(** ** [configure]: the store it leaves *)

Section ConfigureStore.

Import NgxCli.

Variables (w : World) (discovered : list string).

Hypothesis found : ending (_findAddons w) = Returned discovered.

Lemma configure_unfold :
  configure w
  = ([EnvLookup;
      Prompt (List.map (fun a => (a, negb (isDisabled (store w) a))) discovered);
      ConfSet disabledAddons
        (fold_left assignTrue
           (List.filter
              (fun addon =>
                 negb (selected
                         (answers_addons w
                            (List.map (fun a => (a, negb (isDisabled (store w) a)))
                               discovered)) addon))
              discovered) ∅);
      ConsoleLog "Configuration saved."],
     Returned tt).
Proof. unfold configure. rewrite (findAddons_returned _ _ found). reflexivity. Qed.

(** How the written map reads afterwards: an add-on that was not
    selected reads as disabled, [__proto__] included although it is not
    written; a selected one reads as disabled when its name is inherited. *)
Lemma persisted_disabled (answers : list string) (a : string) :
  a ∈ discovered ->
  isDisabled
    (fold_left assignTrue
       (List.filter (fun addon => negb (selected answers addon)) discovered) ∅) a
  = negb (selected answers a) || inherited a.
Proof.
  intros Hin. unfold isDisabled. rewrite reduce_lookup, lookup_empty.
  destruct (selected answers a) eqn:E; cbn [negb orb].
  - rewrite bool_decide_eq_false_2; [reflexivity|].
    rewrite list_elem_of_In, filter_In, E. intros [[_ H] _]. discriminate H.
  - destruct (String.eqb_spec a "__proto__") as [->|Hne].
    + rewrite bool_decide_eq_false_2; [reflexivity|]. intros [_ H]. now apply H.
    + rewrite bool_decide_eq_true_2; [reflexivity|]. split; [|exact Hne].
      rewrite list_elem_of_In, filter_In, E, <- list_elem_of_In. now split.
Qed.

End ConfigureStore.

(** X13. [configure] and then [new]: in the world that [configure]
    leaves, creating an app passes to the runtime, in discovery order,
    the discovered add-ons that the user left checked, except those
    whose identifier names a member of [Object.prototype], which are not
    passed even when checked. *)
Theorem X13_configure_then_new (options : NgxCli.Options) (w : World)
    (args : list string) (discovered : list string) :
  ending (NgxCli._findAddons w) = Returned discovered ->
  let choices :=
    List.map (fun a => (a, negb (NgxCli.isDisabled (store w) a))) discovered in
  let chosen := answers_addons w choices in
  let next := world_after w (trace (NgxCli.configure w)) in
  List.filter isEnvRun (trace (NgxCli.generate options next false args false))
  = [EnvRun ("ngx-rocket" :: args)
       {| run_update := false;
          run_packageManager := NgxCli._packageManager options w;
          run_addons :=
            Some (String.concat " "
                    (List.filter
                       (fun a => NgxCli.selected chosen a
                                 && negb (bool_decide (a ∈ objectPrototype)))
                       discovered));
          skip_welcome := true |}].
Proof.
  intros Hfound choices chosen next.
  unfold next. rewrite (configure_unfold w discovered Hfound).
  unfold world_after, trace. cbn [fst fold_left]. rewrite String.eqb_refl.
  fold choices. fold chosen.
  set (persisted := fold_left _ _ ∅).
  rewrite generate_new. cbn [trace ending fst snd].
  rewrite (generateApp_unfold options (write_store w persisted) false args discovered Hfound).
  change (store (write_store w persisted)) with persisted.
  replace (List.filter (fun addon => negb (NgxCli.isDisabled persisted addon)) discovered)
    with (List.filter
            (fun a => NgxCli.selected chosen a && negb (bool_decide (a ∈ objectPrototype)))
            discovered); [reflexivity|].
  apply filter_ext_in. intros a Hin. apply list_elem_of_In in Hin.
  unfold persisted. rewrite (persisted_disabled discovered chosen a Hin).
  rewrite negb_orb, negb_involutive. do 2 f_equal.
  apply eq_true_iff_eq. rewrite bool_decide_eq_true. symmetry. apply inherited_spec.
Qed.

Lemma X13_configure_then_new_witness :
  ending (NgxCli._findAddons Sample.installed) = Returned ["A"; "B"; "C"] /\
  List.filter isEnvRun
    (trace (NgxCli.generate Sample.no_options
              (world_after Sample.installed (trace (NgxCli.configure Sample.installed)))
              false [] false))
  = [EnvRun ["ngx-rocket"]
       {| run_update := false;
          run_packageManager := JStr "npm";
          run_addons := Some "A C";
          skip_welcome := true |}].
Proof.
  assert (H : ending (NgxCli._findAddons Sample.installed) = Returned ["A"; "B"; "C"])
    by (vm_compute; reflexivity).
  split; [exact H|].
  exact (X13_configure_then_new Sample.no_options Sample.installed [] ["A"; "B"; "C"] H).
Defined.

(** X14. When the user leaves the proposed selection as it is,
    [configure] writes a map whose keys, all sent to [true], are exactly
    the discovered add-ons that read as disabled before (the store
    mapped them to [true], or did not hold them and they are named like
    a member of [Object.prototype]), [__proto__] excepted; entries of
    add-ons that are no longer discovered are gone. *)
Theorem X14_accepting_the_proposal (w : World) (discovered : list string) :
  ending (NgxCli._findAddons w) = Returned discovered ->
  let choices :=
    List.map (fun a => (a, negb (NgxCli.isDisabled (store w) a))) discovered in
  answers_addons w choices = List.map fst (List.filter snd choices) ->
  exists persisted : gmap string bool,
    List.filter isConfSet (trace (NgxCli.configure w))
    = [ConfSet "disabledAddons" persisted] /\
    (forall a, persisted !! a
               = if bool_decide (a ∈ discovered /\ reads_disabled (store w) a
                                 /\ a <> "__proto__")
                 then Some true else None).
Proof.
  intros Hfound choices Hanswers.
  rewrite (configure_unfold w discovered Hfound). fold choices. rewrite Hanswers.
  eexists. split; [reflexivity|].
  intros a. rewrite reduce_lookup, lookup_empty.
  apply (f_equal (fun b : bool => if b then Some true else None)).
  apply bool_decide_ext.
  rewrite list_elem_of_In, filter_In, negb_true_iff, <- list_elem_of_In.
  rewrite <- not_true_iff_false, selected_spec.
  assert (Hkey : a ∈ discovered ->
                 (a ∈ List.map fst (List.filter snd choices) <->
                  NgxCli.isDisabled (store w) a = false)).
  { intros Hin. rewrite list_elem_of_In, in_map_iff. split.
    - intros ([a' checked] & Heq & Hc). cbn in Heq. subst a'.
      apply filter_In in Hc as [Hc Hchecked]. cbn in Hchecked. subst checked.
      unfold choices in Hc. apply in_map_iff in Hc as (a' & [= <- Hneg] & _).
      now apply negb_true_iff in Hneg.
    - intros E. exists (a, true). split; [reflexivity|].
      apply filter_In. split; [|reflexivity].
      unfold choices. apply in_map_iff. exists a. rewrite E.
      split; [reflexivity|now apply list_elem_of_In]. }
  rewrite <- isDisabled_true. split.
  - intros [[Hin Hnot] Hne]. repeat split; [exact Hin| |exact Hne].
    destruct (NgxCli.isDisabled (store w) a) eqn:E; [reflexivity|].
    exfalso. apply Hnot. now apply Hkey.
  - intros (Hin & Hdis & Hne). repeat split; [exact Hin| |exact Hne].
    intros Hsel. apply (Hkey Hin) in Hsel. congruence.
Qed.

Lemma X14_accepting_the_proposal_witness :
  let w := write_store Sample.installed {[ "B" := true; "gone" := true ]} in
  let accepting : World :=
    {| files := files w; yo_rc := yo_rc w; NGX_PACKAGE_MANAGER := NGX_PACKAGE_MANAGER w;
       generatorsMeta := generatorsMeta w; store := store w;
       answers_addons := fun choices => List.map fst (List.filter snd choices) |} in
  ending (NgxCli._findAddons accepting) = Returned ["A"; "B"; "C"] /\
  exists persisted : gmap string bool,
    List.filter isConfSet (trace (NgxCli.configure accepting))
    = [ConfSet "disabledAddons" persisted] /\
    persisted !! "B" = Some true /\ persisted !! "gone" = None /\ persisted !! "A" = None.
Proof.
  cbn zeta.
  match goal with |- ending (NgxCli._findAddons ?W) = _ /\ _ => set (accepting := W) end.
  assert (H : ending (NgxCli._findAddons accepting) = Returned ["A"; "B"; "C"])
    by (vm_compute; reflexivity).
  split; [exact H|].
  destruct (X14_accepting_the_proposal accepting ["A"; "B"; "C"] H eq_refl)
    as (persisted & Hset & Hmap).
  exists persisted. split; [exact Hset|].
  rewrite !Hmap. repeat split; vm_compute; reflexivity.
Defined.

(** X15. [configure] never runs the generator runtime. When discovery
    returns, it asks once, writes the store once and returns; when
    discovery throws, it ends in that exception having neither asked nor
    written. *)
Theorem X15_configure_writes_once (w : World) :
  (forall e, e ∈ trace (NgxCli.configure w) -> isEnvRun e = false) /\
  (forall discovered,
      ending (NgxCli._findAddons w) = Returned discovered ->
      ending (NgxCli.configure w) = Returned tt /\
      length (List.filter asks_or_writes (trace (NgxCli.configure w))) = 2 /\
      length (List.filter isConfSet (trace (NgxCli.configure w))) = 1) /\
  (forall e,
      ending (NgxCli._findAddons w) = Threw e ->
      NgxCli.configure w = ([EnvLookup], Threw e)).
Proof.
  assert (Hthrow : forall e, ending (NgxCli._findAddons w) = Threw e ->
                             NgxCli.configure w = ([EnvLookup], Threw e)).
  { intros e He. unfold NgxCli.configure. rewrite findAddons_unfold in *.
    cbn [ending snd] in He.
    destruct (filterM _ _) as [kept|e']; [discriminate He|]. injection He as ->.
    reflexivity. }
  split; [|split; [|exact Hthrow]].
  - intros x Hx. destruct (ending (NgxCli._findAddons w)) as [d|e|code] eqn:E.
    + rewrite (configure_unfold w d E) in Hx. apply list_elem_of_In in Hx.
      cbn in Hx. intuition (subst; reflexivity).
    + rewrite (Hthrow e eq_refl) in Hx. apply list_elem_of_singleton in Hx. now subst.
    + rewrite findAddons_unfold in E. cbn [ending snd] in E.
      destruct (filterM _ _); discriminate E.
  - intros discovered Hfound. rewrite (configure_unfold w discovered Hfound).
    repeat split.
Qed.

Lemma X15_configure_writes_once_witness :
  ending (NgxCli._findAddons Sample.stray_generator) = Threw TypeError /\
  NgxCli.configure Sample.stray_generator = ([EnvLookup], Threw TypeError).
Proof.
  assert (H : ending (NgxCli._findAddons Sample.stray_generator) = Threw TypeError)
    by (vm_compute; reflexivity).
  split; [exact H|].
  exact (proj2 (proj2 (X15_configure_writes_once Sample.stray_generator)) TypeError H).
Defined.

(** ** The commands: [run], [runScript], [_help], [list] *)

Section Commands.

Import Cli.

Lemma bind_completed {A B : Type} (t : list effect) (a : A) (f : A -> P B) :
  ((t, Completed a) : P A) ≫= f = ((t ++ fst (f a))%list, snd (f a)).
Proof. cbn. now destruct (f a). Qed.

Lemma ret_bind {A B : Type} (a : A) (f : A -> P B) :
  (mret a : P A) ≫= f = f a.
Proof. unfold mret, P_ret. rewrite bind_completed. now destruct (f a). Qed.

Lemma try_ok_bind {A B : Type} (a : A) (f : A -> P B) :
  try (Ok a) ≫= f = f a.
Proof. apply ret_bind. Qed.

Lemma perform_then {B : Type} (e : effect) (m : P B) :
  (perform e;; m) = (e :: fst m, snd m).
Proof. unfold perform. rewrite bind_completed. reflexivity. Qed.

Lemma help_unfold {A : Type} (h : Host) (details : bool) :
  @_help A h details
  = ([Core (ConsoleLogLogo NgxCli.pkg_version);
      Core (ConsoleError
              (help (appName h)
                 ++ (if details then detailedHelp else "Use --help for more info." ++ nl)))],
     Terminated 1%Z).
Proof. reflexivity. Qed.

Lemma harmless_bind {A B : Type} (m : P A) (f : A -> P B) :
  harmless m -> (forall a, harmless (f a)) -> harmless (m ≫= f).
Proof.
  intros [Ht Ho] Hf. destruct m as [t [a|e|code]].
  - rewrite bind_completed. destruct (Hf a) as [Hft Hfo]. split; [|exact Hfo].
    intros e He. cbn [fst] in He. apply elem_of_app in He as [He|He]; auto.
  - split; [exact Ht|intros code; discriminate].
  - exfalso. now apply (Ho code).
Qed.

Lemma harmless_ret {A : Type} (a : A) : harmless (mret a : P A).
Proof. split; [intros e He; inversion He|intros code; discriminate]. Qed.

Lemma harmless_fail {A : Type} (f : failure) : harmless (fail f : P A).
Proof. split; [intros e He; inversion He|intros code; discriminate]. Qed.

Lemma harmless_try {A : Type} (r : result A) : harmless (try r).
Proof. destruct r; [apply harmless_ret|apply harmless_fail]. Qed.

Lemma harmless_log (text : string) : harmless (log text).
Proof.
  split; [|intros code; discriminate].
  intros e He. apply list_elem_of_singleton in He. now subst.
Qed.

Lemma harmless_forEach {A : Type} (f : A -> P unit) (l : list A) :
  (forall x, harmless (f x)) -> harmless (forEach f l).
Proof.
  intros Hf. induction l as [|x l IH]; [apply harmless_ret|].
  cbn [forEach]. apply harmless_bind; [apply Hf|intros _; exact IH].
Qed.

Lemma harmless_npmAddons (h : Host) : harmless (npmAddons h).
Proof.
  unfold npmAddons. apply harmless_bind.
  - split; [|intros code; discriminate].
    intros e He. apply list_elem_of_singleton in He. now subst.
  - intros _. apply harmless_bind.
    + destruct (npm_search h); [apply harmless_fail|apply harmless_ret].
    + intros stdout. apply harmless_bind.
      * destruct stdout; [apply harmless_try|apply harmless_ret].
      * intros [| | | | |items|]; try apply harmless_fail. apply harmless_try.
Qed.

Lemma harmless_discovery (w : World) : harmless (core (NgxCli._findAddons w)).
Proof.
  rewrite findAddons_unfold. unfold core. cbn [fst snd List.map]. split.
  - intros e He. apply list_elem_of_singleton in He. now subst.
  - intros code. now destruct (filterM _ _).
Qed.

Lemma harmless_list (w : World) (h : Host) (npm : bool) : harmless (list_ w h npm).
Proof.
  unfold list_. apply harmless_bind.
  - destruct npm.
    + apply harmless_bind; [apply harmless_npmAddons|intros; apply harmless_ret].
    + apply harmless_bind; [apply harmless_discovery|intros; apply harmless_ret].
  - intros addons. apply harmless_bind; [apply harmless_log|]. intros _.
    destruct addons as [entries|identifiers].
    + destruct (Nat.eqb _ 0); [apply harmless_log|].
      apply harmless_forEach. intros item. unfold npmLine.
      repeat (apply harmless_bind; [apply harmless_try|intros ?]). apply harmless_log.
    + destruct (Nat.eqb _ 0); [apply harmless_log|].
      apply harmless_forEach. intros a. apply harmless_log.
Qed.

Lemma forEach_lines {A : Type} (f : A -> P unit) (text : A -> string) (l : list A) :
  (forall x, x ∈ l -> f x = log (text x)) ->
  forEach f l = (List.map (fun x => Core (ConsoleLog (text x))) l, Completed tt).
Proof.
  induction l as [|x l IH]; intros H; [reflexivity|].
  cbn [forEach List.map]. rewrite (H x (list_elem_of_here _ _)).
  unfold log, perform. rewrite bind_completed.
  rewrite IH by (intros y Hy; apply H; now apply list_elem_of_further). reflexivity.
Qed.

Lemma filterM_pure {A : Type} (f : A -> result bool) (keep : A -> bool) (l : list A) :
  (forall x, x ∈ l -> f x = Ok (keep x)) -> filterM f l = Ok (List.filter keep l).
Proof.
  induction l as [|x l IH]; intros H; [reflexivity|].
  cbn [filterM List.filter]. rewrite (H x (list_elem_of_here _ _)).
  change (Ok (keep x) ≫= _) with
    (kept ← filterM f l; Ok (if keep x : bool then x :: kept else kept)).
  rewrite IH by (intros y Hy; apply H; now apply list_elem_of_further). reflexivity.
Qed.

Lemma member_field (item : jsval) (key : string) :
  item <> JNull -> item <> JUndefined -> member item key = Ok (field item key).
Proof. intros H1 H2. unfold field. destruct item; try reflexivity; contradiction. Qed.

Lemma npmAddons_array (h : Host) (items : list jsval) :
  npm_search h = ExecReturns (Some (Ok (JArr items))) ->
  (forall item, item ∈ items -> item <> JNull /\ item <> JUndefined) ->
  npmAddons h
  = ([ExecSync searchCommand],
     Completed (List.filter (fun item => notBlacklisted (field item "name")) items)).
Proof.
  intros Hsearch Hitems. unfold npmAddons.
  rewrite Hsearch, perform_then, ret_bind, try_ok_bind.
  rewrite (filterM_pure _ (fun item => notBlacklisted (field item "name"))).
  - reflexivity.
  - intros item Hin. destruct (Hitems item Hin) as [H1 H2].
    now rewrite (member_field item "name" H1 H2).
Qed.

Lemma toString_scalar (h : Host) (v : jsval) :
  scalar v = true -> toString (numberToString h) v = Ok (printed h v).
Proof. unfold printed. destruct v as [| |[|]| | | |]; try discriminate; reflexivity. Qed.

Lemma npmLine_text (h : Host) (item : jsval) :
  item <> JNull -> item <> JUndefined ->
  (forall key, scalar (field item key) = true) ->
  npmLine h item = log (npmText h item).
Proof.
  intros H1 H2 Hs. unfold npmLine. rewrite !(member_field item _ H1 H2).
  cbn [mbind result_bind]. rewrite !toString_scalar by apply Hs.
  rewrite !try_ok_bind. reflexivity.
Qed.

Lemma localLine_text (disabled : gmap string bool) (a : string) :
  localLine disabled a = log (localText disabled a).
Proof.
  unfold localLine, localText. do 2 f_equal.
  destruct (NgxCli.isDisabled disabled a) eqn:E.
  - apply isDisabled_true in E. now rewrite bool_decide_eq_true_2.
  - rewrite bool_decide_eq_false_2; [reflexivity|].
    intros H. apply isDisabled_true in H. congruence.
Qed.

End Commands.

(** X16. With [--help] the program prints the logo and the detailed
    usage on the error stream and exits with status 1, whatever the
    command and the world: no generator, script, prompt or store write. *)
Theorem X16_help_first (cli : Cli.Instance) (w : World) (h : Cli.Host) :
  NgxCli.help (Cli._options cli) = true ->
  Cli.run cli w h
  = ([Cli.UpdateNotifier;
      Cli.Core (ConsoleLogLogo "6.0.0");
      Cli.Core (ConsoleError (Cli.help (Cli.appName h) ++ Cli.detailedHelp))],
     Cli.Terminated 1%Z).
Proof. intros H. unfold Cli.run. rewrite H. reflexivity. Qed.

Lemma X16_help_first_witness :
  NgxCli.help (Cli._options (Sample2.instance ["new"; "--addon"; "--help"] true)) = true /\
  snd (Cli.run (Sample2.instance ["new"; "--addon"; "--help"] true)
         Sample.installed Sample2.registry)
  = Cli.Terminated 1%Z.
Proof.
  split; [reflexivity|].
  now rewrite (X16_help_first (Sample2.instance ["new"; "--addon"; "--help"] true)
                 Sample.installed Sample2.registry eq_refl).
Defined.

Lemma entry_scalar (name version description key : string) :
  scalar (field (Sample2.entry name version description) key) = true.
Proof.
  unfold field, Sample2.entry, member.
  destruct (_ !! key) as [v|] eqn:E; [|reflexivity]. cbn [default from_option id].
  apply lookup_insert_Some in E as [[_ <-] | [_ E]]; [reflexivity|].
  apply lookup_insert_Some in E as [[_ <-] | [_ E]]; [reflexivity|].
  apply lookup_singleton_Some in E as [_ <-]. reflexivity.
Qed.

(** X19. [list --npm], when the registry answers with an array of
    entries whose fields are strings or other scalars (a missing field
    prints as [undefined]): after the search and the heading, one line
    [name@version - description] is printed for each entry whose name is
    not blacklisted, in the order of the answer, or [No add-ons found.]
    when none is left; no printed entry is named [generator-ngx-rocket]
    or [generator-ngx-rocket-addon]. *)
Theorem X19_registry_listing (w : World) (h : Cli.Host) (items : list jsval) :
  Cli.npm_search h = Cli.ExecReturns (Some (Ok (JArr items))) ->
  (forall item, item ∈ items ->
                item <> JNull /\ item <> JUndefined /\
                forall key, scalar (field item key) = true) ->
  let shown :=
    List.filter (fun item => Cli.notBlacklisted (field item "name")) items in
  Cli.list_ w h true
  = (Cli.ExecSync "npm search ngx-rocket-addon --json"
       :: Cli.Core (ConsoleLog "Available add-ons on NPM:")
       :: match shown with
          | [] => [Cli.Core (ConsoleLog "  No add-ons found.")]
          | _ => List.map (fun item => Cli.Core (ConsoleLog (npmText h item))) shown
          end,
     Cli.Completed tt) /\
  (forall item, item ∈ shown ->
                field item "name" <> JStr "generator-ngx-rocket" /\
                field item "name" <> JStr "generator-ngx-rocket-addon").
Proof.
  intros Hsearch Hitems shown. split.
  - unfold Cli.list_.
    rewrite (npmAddons_array h items Hsearch
               (fun item Hin => conj (proj1 (Hitems item Hin))
                                  (proj1 (proj2 (Hitems item Hin))))).
    fold shown.
    assert (Hshown : forall item, item ∈ shown -> Cli.npmLine h item = Cli.log (npmText h item)).
    { intros item Hin. apply list_elem_of_In, filter_In in Hin as [Hin _].
      apply list_elem_of_In, Hitems in Hin as (H1 & H2 & H3). now apply npmLine_text. }
    pose proof (forEach_lines (Cli.npmLine h) (npmText h) shown Hshown) as Hlines.
    destruct shown as [|item shown']; [reflexivity|].
    cbn -[Cli.forEach npmText]. rewrite Hlines. reflexivity.
  - intros item Hin. apply list_elem_of_In, filter_In in Hin as [_ Hkeep].
    unfold Cli.notBlacklisted in Hkeep. apply negb_true_iff in Hkeep.
    split; intros Hname; rewrite Hname in Hkeep; discriminate Hkeep.
Qed.

Lemma X19_registry_listing_witness :
  Cli.npm_search Sample2.registry
  = Cli.ExecReturns
      (Some (Ok (JArr [ Sample2.entry "generator-ngx-rocket" "6.0.0" "The generator";
                        Sample2.entry "generator-ngx-rocket-addon-x" "1.2.0" "An add-on";
                        Sample2.entry "generator-ngx-rocket-addon" "1.0.0"
                          "Add-on generator" ]))) /\
  Cli.list_ Sample.installed Sample2.registry true
  = ([Cli.ExecSync "npm search ngx-rocket-addon --json";
      Cli.Core (ConsoleLog "Available add-ons on NPM:");
      Cli.Core (ConsoleLog "  generator-ngx-rocket-addon-x@1.2.0 - An add-on")],
     Cli.Completed tt).
Proof.
  split; [reflexivity|].
  assert (Hitems : forall item,
             item ∈ [ Sample2.entry "generator-ngx-rocket" "6.0.0" "The generator";
                      Sample2.entry "generator-ngx-rocket-addon-x" "1.2.0" "An add-on";
                      Sample2.entry "generator-ngx-rocket-addon" "1.0.0" "Add-on generator" ] ->
             item <> JNull /\ item <> JUndefined /\
             forall key, scalar (field item key) = true).
  { intros item Hin. apply list_elem_of_In in Hin. cbn [In] in Hin.
    assert (Hentry : exists name version description,
               item = Sample2.entry name version description)
      by (destruct Hin as [<- | [<- | [<- | []]]]; eauto).
    destruct Hentry as (name & version & description & ->).
    split; [discriminate|]. split; [discriminate|]. apply entry_scalar. }
  rewrite (proj1 (X19_registry_listing Sample.installed Sample2.registry _ eq_refl Hitems)).
  vm_compute. reflexivity.
Defined.

(** X20. [list] without [--npm], when discovery returns: after the
    lookup and the heading, one line is printed per discovered add-on, in
    discovery order, a blank in front of those that read as disabled
    (the store maps them to [true], or does not hold them and they are
    named like a member of [Object.prototype]) and a tick in front of the
    others; [No add-ons found.] when there is none. *)
Theorem X20_local_listing (w : World) (h : Cli.Host) (discovered : list string) :
  ending (NgxCli._findAddons w) = Returned discovered ->
  Cli.list_ w h false
  = (Cli.Core EnvLookup
       :: Cli.Core (ConsoleLog "Available add-ons:")
       :: match discovered with
          | [] => [Cli.Core (ConsoleLog "  No add-ons found.")]
          | _ => List.map (fun a => Cli.Core (ConsoleLog (localText (store w) a))) discovered
          end,
     Cli.Completed tt).
Proof.
  intros Hfound. unfold Cli.list_. rewrite (findAddons_returned _ _ Hfound).
  pose proof (forEach_lines (Cli.localLine (store w)) (localText (store w)) discovered
                (fun a _ => localLine_text (store w) a)) as Hlines.
  destruct discovered as [|a discovered']; [reflexivity|].
  cbn -[Cli.forEach localText]. rewrite Hlines. reflexivity.
Qed.

Lemma X20_local_listing_witness :
  ending (NgxCli._findAddons Sample.installed) = Returned ["A"; "B"; "C"] /\
  Cli.list_ Sample.installed Sample2.offline false
  = ([Cli.Core EnvLookup;
      Cli.Core (ConsoleLog "Available add-ons:");
      Cli.Core (ConsoleLog "✔ A");
      Cli.Core (ConsoleLog "  B");
      Cli.Core (ConsoleLog "✔ C")],
     Cli.Completed tt).
Proof.
  assert (H : ending (NgxCli._findAddons Sample.installed) = Returned ["A"; "B"; "C"])
    by (vm_compute; reflexivity).
  split; [exact H|].
  rewrite (X20_local_listing Sample.installed Sample2.offline ["A"; "B"; "C"] H).
  vm_compute. reflexivity.
Defined.

(** With nothing disabled, the add-ons named [constructor] and
    [__proto__] are listed as disabled all the same. *)
Example local_listing_of_odd_names :
  Cli.list_ Sample2.odd_names Sample2.offline false
  = ([Cli.Core EnvLookup;
      Cli.Core (ConsoleLog "Available add-ons:");
      Cli.Core (ConsoleLog "  constructor");
      Cli.Core (ConsoleLog "✔ A");
      Cli.Core (ConsoleLog "  __proto__")],
     Cli.Completed tt).
Proof. vm_compute. reflexivity. Qed.

(** X21. [list] only searches, looks up and prints: in both modes and
    in every world it runs no generator and no script, asks nothing,
    writes no store, and does not end the process. *)
Theorem X21_list_changes_nothing (w : World) (h : Cli.Host) (npm : bool) :
  (forall e, e ∈ fst (Cli.list_ w h npm) -> changes_something e = false) /\
  (forall code, snd (Cli.list_ w h npm) <> Cli.Terminated code).
Proof. apply harmless_list. Qed.

Lemma X21_list_changes_nothing_witness :
  Cli.Core EnvLookup ∈ fst (Cli.list_ Sample.installed Sample2.registry false) /\
  changes_something (Cli.Core EnvLookup) = false.
Proof.
  assert (H : Cli.Core EnvLookup ∈ fst (Cli.list_ Sample.installed Sample2.registry false)).
  { apply list_elem_of_In. vm_compute. left. reflexivity. }
  split; [exact H|].
  exact (proj1 (X21_list_changes_nothing Sample.installed Sample2.registry false) _ H).
Defined.

(** X22. [list --npm] prints nothing when the search fails: a failing
    command, an answer that is not JSON, and a JSON answer that is not an
    array each end the command in the exception right after the search. *)
Theorem X22_registry_failure (w : World) (h : Cli.Host) :
  (Cli.npm_search h = Cli.ExecThrows ->
   Cli.list_ w h true
   = ([Cli.ExecSync "npm search ngx-rocket-addon --json"], Cli.Failed Cli.ChildProcessError)) /\
  (forall e,
      Cli.npm_search h = Cli.ExecReturns (Some (Throw e)) ->
      Cli.list_ w h true
      = ([Cli.ExecSync "npm search ngx-rocket-addon --json"], Cli.Failed (Cli.JsError e))) /\
  (forall v,
      Cli.npm_search h = Cli.ExecReturns (Some (Ok v)) ->
      (forall items, v <> JArr items) ->
      Cli.list_ w h true
      = ([Cli.ExecSync "npm search ngx-rocket-addon --json"],
         Cli.Failed (Cli.JsError TypeError))).
Proof.
  unfold Cli.list_, Cli.npmAddons. split; [|split].
  - intros ->. reflexivity.
  - intros e ->. reflexivity.
  - intros v -> Hv. destruct v; try reflexivity. now contradiction (Hv items).
Qed.

Lemma X22_registry_failure_witness :
  Cli.npm_search Sample2.offline = Cli.ExecThrows /\
  Cli.list_ Sample.installed Sample2.offline true
  = ([Cli.ExecSync "npm search ngx-rocket-addon --json"], Cli.Failed Cli.ChildProcessError).
Proof.
  split; [reflexivity|].
  exact (proj1 (X22_registry_failure Sample.installed Sample2.offline) eq_refl).
Defined.

(** X23. [list --npm] does not depend on what is installed nor on the
    store: it does the same in any two worlds. *)
Theorem X23_registry_listing_ignores_world (w w' : World) (h : Cli.Host) :
  Cli.list_ w h true = Cli.list_ w' h true.
Proof.
  unfold Cli.list_. destruct (Cli.npmAddons h) as [t [entries|f|code]]; reflexivity.
Qed.

(** ** [run]: dispatch and exit status *)

Section Dispatch.

Import Cli.

Variables (cli : Instance) (w : World) (h : Host).

Lemma run_help :
  NgxCli.help (_options cli) = true ->
  run cli w h
  = ([UpdateNotifier;
      Core (ConsoleLogLogo NgxCli.pkg_version);
      Core (ConsoleError (help (appName h) ++ detailedHelp))],
     Terminated 1%Z).
Proof. intros H. unfold run. rewrite H. reflexivity. Qed.

Lemma run_no_argument :
  NgxCli.help (_options cli) = false ->
  _args cli = [] ->
  run cli w h
  = ([UpdateNotifier;
      Core (ConsoleLogLogo NgxCli.pkg_version);
      Core (ConsoleError (help (appName h) ++ "Use --help for more info." ++ nl))],
     Terminated 1%Z).
Proof. intros H Ha. unfold run. rewrite H, Ha. reflexivity. Qed.

(** What [run] hands over to, by the first argument. *)
Lemma run_cases (command : string) (rest : list string) :
  NgxCli.help (_options cli) = false ->
  _args cli = command :: rest ->
  exists next : P unit,
    run cli w h = (UpdateNotifier :: fst next, snd next) /\
    (((command = "n" \/ command = "new") /\
      next = core (NgxCli.generate (_options cli) w false rest (NgxCli.addon (_options cli)))) \/
     ((command = "u" \/ command = "update") /\
      next = core (NgxCli.generate (_options cli) w true rest (NgxCli.addon (_options cli)))) \/
     ((command = "c" \/ command = "config") /\ next = core (NgxCli.configure w)) \/
     ((command = "l" \/ command = "list") /\ next = list_ w h (NgxCli.npm (_options cli))) \/
     ((command ∉ commands) /\ next = runScript (_options cli) w h (command :: rest))).
Proof.
  intros Hh Ha. unfold run. rewrite Hh, Ha, perform_then. eexists. split; [reflexivity|].
  destruct (String.eqb_spec command "n") as [->|N1]; [left; split; [now left|reflexivity]|].
  destruct (String.eqb_spec command "new") as [->|N2]; [left; split; [now right|reflexivity]|].
  right.
  destruct (String.eqb_spec command "u") as [->|N3]; [left; split; [now left|reflexivity]|].
  destruct (String.eqb_spec command "update") as [->|N4];
    [left; split; [now right|reflexivity]|].
  right.
  destruct (String.eqb_spec command "c") as [->|N5]; [left; split; [now left|reflexivity]|].
  destruct (String.eqb_spec command "config") as [->|N6];
    [left; split; [now right|reflexivity]|].
  right.
  destruct (String.eqb_spec command "l") as [->|N7]; [left; split; [now left|reflexivity]|].
  destruct (String.eqb_spec command "list") as [->|N8];
    [left; split; [now right|reflexivity]|].
  right. split; [|reflexivity].
  intros Hin. apply list_elem_of_In in Hin. cbn in Hin. intuition congruence.
Qed.

Lemma runScript_cases (args : list string) :
  (truthy (first args) = false /\
   runScript (_options cli) w h args
   = ([Core (ConsoleLogLogo NgxCli.pkg_version);
       Core (ConsoleError (help (appName h) ++ "Use --help for more info." ++ nl))],
      Terminated 1%Z)) \/
  (truthy (first args) = true /\
   runScript (_options cli) w h args
   = ([FuzzyRun args (NgxCli._packageManager (_options cli) w)], Completed tt)).
Proof.
  unfold runScript. destruct (truthy (first args)); [right|left]; split; reflexivity.
Qed.

Lemma core_terminated {A : Type} (m : M A) (code : Z) :
  snd (core m) = Terminated code <-> ending m = Exited code.
Proof.
  unfold core, ending. cbn [snd]. destruct (snd m); split; congruence.
Qed.

Lemma core_effects {A : Type} (m : M A) (e : effect) :
  e ∈ fst (core m) -> exists e' : event, e = Core e'.
Proof.
  unfold core. cbn [fst]. intros H. apply list_elem_of_In, in_map_iff in H as (e' & <- & _).
  now exists e'.
Qed.

Lemma generate_exited (options : NgxCli.Options) (update : bool) (args : list string)
    (addon : bool) (code : Z) :
  ending (NgxCli.generate options w update args addon) = Exited code ->
  update = true /\ yo_rc w = Missing /\ code = 1%Z.
Proof.
  intros H.
  destruct (generate_cases options w update args addon)
    as [E | [E | [(a & o & E) | [(e & E) | (a & o & E)]]]];
    rewrite E in H; try discriminate H.
  injection H as <-.
  destruct update.
  - destruct (yo_rc w) as [| |rc] eqn:Hrc; [now repeat split| |].
    + rewrite (generate_update_unreadable options w args addon Hrc) in E. discriminate E.
    + rewrite (generate_update_json options w args addon rc Hrc) in E.
      destruct (truthy _).
      * rewrite generateAddon_unfold in E. discriminate E.
      * destruct (generateApp_cases options w true args) as [[e He] | [o He]];
          rewrite He in E; discriminate E.
  - rewrite generate_new in E. injection E as E _. discriminate E.
Qed.

Lemma configure_not_exited (code : Z) : ending (NgxCli.configure w) <> Exited code.
Proof.
  unfold NgxCli.configure. rewrite findAddons_unfold.
  destruct (filterM _ _); discriminate.
Qed.

End Dispatch.

(** X17. [run] ends the process itself, always with status 1, in
    exactly three situations: [--help] is given; there is no first
    argument or it is empty; the command is [u] or [update] and the
    working directory has no [.yo-rc.json]. *)
Theorem X17_exit_status (cli : Cli.Instance) (w : World) (h : Cli.Host) (code : Z) :
  snd (Cli.run cli w h) = Cli.Terminated code <->
  code = 1%Z /\
  (NgxCli.help (Cli._options cli) = true \/
   truthy (Cli.first (Cli._args cli)) = false \/
   ((exists rest, Cli._args cli = "u" :: rest \/ Cli._args cli = "update" :: rest) /\
    yo_rc w = Missing)).
Proof.
  destruct (NgxCli.help (Cli._options cli)) eqn:Hh.
  { rewrite (run_help cli w h Hh). cbn [snd]. split.
    - intros [= <-]. split; [reflexivity|now left].
    - intros [-> _]. reflexivity. }
  destruct (Cli._args cli) as [|command rest] eqn:Ha.
  { rewrite (run_no_argument cli w h Hh Ha). cbn [snd]. split.
    - intros [= <-]. split; [reflexivity|right; now left].
    - intros [-> _]. reflexivity. }
  destruct (run_cases cli w h command rest Hh Ha) as (next & -> & Hnext). cbn [snd].
  destruct Hnext as [[Hc ->] | [[Hc ->] | [[Hc ->] | [[Hc ->] | [Hc ->]]]]].
  - rewrite core_terminated. split.
    + intros H. apply generate_exited in H as [H _]. discriminate H.
    + destruct Hc as [-> | ->]; intros [_ [H | [H | [(r & [H | H]) _]]]];
        (discriminate H || (cbn in H; discriminate H)).
  - rewrite core_terminated. split.
    + intros H. apply generate_exited in H as (_ & Hm & ->).
      split; [reflexivity|]. right. right. split; [|exact Hm].
      exists rest. destruct Hc as [-> | ->]; [now left|now right].
    + intros [-> [H | [H | [_ Hm]]]]; try discriminate H.
      * cbn in H. destruct Hc as [-> | ->]; discriminate H.
      * now rewrite (generate_update_missing _ w rest _ Hm).
  - rewrite core_terminated. split.
    + intros H. now apply configure_not_exited in H.
    + destruct Hc as [-> | ->]; intros [_ [H | [H | [(r & [H | H]) _]]]];
        (discriminate H || (cbn in H; discriminate H)).
  - split.
    + intros H. now apply (proj2 (harmless_list w h _)) in H.
    + destruct Hc as [-> | ->]; intros [_ [H | [H | [(r & [H | H]) _]]]];
        (discriminate H || (cbn in H; discriminate H)).
  - destruct (runScript_cases cli w h (command :: rest)) as [[Hf ->] | [Hf ->]]; cbn [snd].
    + split.
      * intros [= <-]. split; [reflexivity|]. right. now left.
      * intros [-> _]. reflexivity.
    + split; [discriminate|].
      intros [_ [H | [H | [(r & [H | H]) _]]]]; try discriminate H.
      * rewrite Hf in H. discriminate H.
      * injection H as -> _. exfalso. apply Hc. apply list_elem_of_In. cbn. tauto.
      * injection H as -> _. exfalso. apply Hc. apply list_elem_of_In. cbn. tauto.
Qed.

Lemma X17_exit_status_witness :
  Cli._args (Sample2.instance ["u"; "--tools"] false) = "u" :: ["--tools"] /\
  yo_rc Sample.installed = Missing /\
  snd (Cli.run (Sample2.instance ["u"; "--tools"] false) Sample.installed Sample2.registry)
  = Cli.Terminated 1%Z.
Proof.
  split; [reflexivity|]. split; [reflexivity|].
  apply (proj2 (X17_exit_status (Sample2.instance ["u"; "--tools"] false)
                  Sample.installed Sample2.registry 1%Z)).
  split; [reflexivity|]. right. right. split; [|reflexivity].
  exists ["--tools"]. left. reflexivity.
Defined.

(** X18. A first argument that is not empty and is none of the eight
    command words is a script name: [run] hands all the arguments and
    the resolved package manager to the fuzzy script runner and does
    nothing else. The script runner is never called in any other
    situation. *)
Theorem X18_script_dispatch (cli : Cli.Instance) (w : World) (h : Cli.Host) :
  (forall command rest,
      NgxCli.help (Cli._options cli) = false ->
      Cli._args cli = command :: rest ->
      command <> "" ->
      command ∉ commands ->
      Cli.run cli w h
      = ([Cli.UpdateNotifier;
          Cli.FuzzyRun (Cli._args cli) (NgxCli._packageManager (Cli._options cli) w)],
         Cli.Completed tt)) /\
  (forall args packageManager,
      Cli.FuzzyRun args packageManager ∈ fst (Cli.run cli w h) ->
      args = Cli._args cli /\
      packageManager = NgxCli._packageManager (Cli._options cli) w /\
      NgxCli.help (Cli._options cli) = false /\
      exists command rest,
        Cli._args cli = command :: rest /\ command <> "" /\ command ∉ commands).
Proof.
  split.
  - intros command rest Hh Ha Hne Hc.
    destruct (run_cases cli w h command rest Hh Ha) as (next & -> & Hnext).
    destruct Hnext as [[Hk _] | [[Hk _] | [[Hk _] | [[Hk _] | [_ ->]]]]];
      try (exfalso; apply Hc; apply list_elem_of_In; cbn;
           destruct Hk as [-> | ->]; tauto).
    destruct (runScript_cases cli w h (command :: rest)) as [[Hf _] | [_ ->]].
    + cbn in Hf. apply negb_false_iff, String.eqb_eq in Hf. contradiction.
    + rewrite Ha. reflexivity.
  - intros args pm Hin.
    destruct (NgxCli.help (Cli._options cli)) eqn:Hh.
    { rewrite (run_help cli w h Hh) in Hin. apply list_elem_of_In in Hin. cbn in Hin.
      intuition discriminate. }
    destruct (Cli._args cli) as [|command rest] eqn:Ha.
    { rewrite (run_no_argument cli w h Hh Ha) in Hin. apply list_elem_of_In in Hin.
      cbn in Hin. intuition discriminate. }
    destruct (run_cases cli w h command rest Hh Ha) as (next & Hrun & Hnext).
    rewrite Hrun in Hin. cbn [fst] in Hin.
    apply elem_of_cons in Hin as [Hin|Hin]; [discriminate Hin|].
    destruct Hnext as [[_ ->] | [[_ ->] | [[_ ->] | [[_ ->] | [Hc ->]]]]];
      try (apply core_effects in Hin as [e' He']; discriminate He').
    + apply (proj1 (harmless_list w h _)) in Hin. discriminate Hin.
    + destruct (runScript_cases cli w h (command :: rest)) as [[Hf Hr] | [Hf Hr]];
        rewrite Hr in Hin; cbn [fst] in Hin.
      * apply list_elem_of_In in Hin. cbn in Hin. intuition discriminate.
      * apply list_elem_of_singleton in Hin. injection Hin as -> ->.
        repeat split. exists command, rest. repeat split; [|exact Hc].
        intros ->. discriminate Hf.
Qed.

Lemma X18_script_dispatch_witness :
  NgxCli.help (Cli._options (Sample2.instance ["build"; "--prod"] false)) = false /\
  "build" <> "" /\
  ("build" ∉ commands) /\
  Cli.run (Sample2.instance ["build"; "--prod"] false) Sample.installed Sample2.registry
  = ([Cli.UpdateNotifier; Cli.FuzzyRun ["build"; "--prod"] (JStr "npm")], Cli.Completed tt).
Proof.
  assert (Hc : "build" ∉ commands).
  { intros Hin. apply list_elem_of_In in Hin. cbn in Hin. intuition discriminate. }
  split; [reflexivity|]. split; [discriminate|]. split; [exact Hc|].
  exact (proj1 (X18_script_dispatch (Sample2.instance ["build"; "--prod"] false)
                  Sample.installed Sample2.registry)
           "build" ["--prod"] eq_refl eq_refl ltac:(discriminate) Hc).
Defined.
